(* ===== verification/_CoqProject ===== *)
-Q . S2P
Prelude.v
PyStr.v
Args.v
Sorting.v
Slug.v
Frontmatter.v
Pipeline.v
Writer.v
Templates.v
PyInt.v
Todo.v
Organizer.v
Cli.v
App.v
