(* ===== verification/Prelude.v ===== *)
(** * A verification library for jcamdev/ai-tasks-0

    The repository holds four small Python programs under src/outputs/:
    a static blog generator (06-markdown-blog-generator/blog_generator.py,
    the program the spec describes), a todo command-line tool
    (03-todo-cli-tool/todo.py), a file organizer
    (05-file-organizer-script/organizer.py) and a Litestar hello-world
    application (01-litestar-hello-world/app.py).  This development models
    all four and proves what makes each of them correct, and where they
    are not.

    ** The programs and how their parts interact

    - Blog generator.  [BlogGenerator.generate_blog] makes the output
      directory, calls [process_posts], and, when posts were assembled,
      writes one page per post, the index page and the stylesheet.
      [process_posts] lists [*.md] in the source directory and, for each
      file inside a [try]/[except], reads it, splits off its metadata
      block with [parse_post_metadata], converts the body with the
      external [markdown] package, derives the slug with [generate_slug],
      appends the post dict to [self.posts] and finally sorts
      [self.posts] by date, newest first.  Each page is the rendering of
      a Jinja [Template] literal (the post page with [post=post], the
      index with [posts=self.posts], whose excerpt is
      [post.content[:200] | striptags]), written in UTF-8.
    - Todo tool.  Each invocation builds a [TodoManager], which loads
      [todos.json]; [main] dispatches on the command word to [add_task],
      [list_tasks], [complete_task] or [delete_task], each of which saves
      the whole list after a change.
    - File organizer.  [organize_directory] scans a directory, groups the
      regular non-hidden files by the category of their extension and
      moves each into the folder of its category, renaming on conflicts;
      [print_summary] reports the counts.
    - Litestar app.  Two constant route handlers in a route table.
    - Command lines.  The blog generator's [main] and the organizer's
      [main] build an [argparse.ArgumentParser] ([--source/-s],
      [--output/-o]; a positional [directory] with default ['.'] and the
      flag [--dry-run]), call [parse_args()] and pass the values to the
      program; [-h] and usage errors end the process before it starts.

    ** Files, in dependency order

    - Prelude.v (this file): the [result] type of fallible calls and its
      [let*] notation (scope [py_scope]); [PyM S A], the monad of Python
      methods (state [S], a value or an exception, effects kept when an
      exception is raised) with stdpp's [x ← m; k] notation and the
      [py_try], [py_for], [py_raise] combinators; [no_raise] and
      [py_preserves] (a method keeps a preorder on its state) with their
      step lemmas in the [py] hint database and the tactics
      [no_raise_steps] and [preserves_steps]; the tactics [invc],
      [bool_split], [by_all_chars], [py_seq]; generic loop lemmas;
      [occurs_in] (Python's [s in t] on sequences), decidable.
    - PyStr.v: the Python string runtime the sources rely on: [strip],
      [strip(chars)], [split], [split(sep, 1)], [lower], slicing,
      [index], [startswith], the classes [\s] and [\w], [PurePath.stem]
      and [suffix] (Python 3.13 and earlier), and [PurePosixPath.parts]
      ([py_path], the organizer's [Path(source_dir)]).  Strings are Rocq [string]s
      whose characters stand for the code points U+0000..U+00FF; each
      classification is Python's on that range.
    - Sorting.v: [list.sort(key=..., reverse=True)] as the stable
      insertion sort [sort_desc], with the library's contract
      [stable_sort_spec].
    - Slug.v (Module [Slug]): [generate_slug] (blog_generator.py:47-51).
    - Frontmatter.v (Module [Frontmatter]): [parse_post_metadata]
      (lines 16-45); the dict is a [gmap string MetaValue].
    - Pipeline.v (Module [Pipeline]): the post dict ([Post]), post
      assembly ([process_file], lines 69-91), the object
      ([BlogGenerator]) and its [World] (the object and the trace of
      effects), and [process_posts] (lines 53-100) as a [PyM World]
      method.  The [markdown] package, the Jinja templates and the output
      file system are the interfaces (type classes) [Markdown],
      [Templates] and [Storage].
    - Writer.v (Module [Writer]): [generate_post_pages],
      [generate_index_page], [generate_css] (the stylesheet literal copied
      verbatim), [generate_blog] and [main].
    - Templates.v (Module [Templates]): the page renderer.  The two
      template literals (lines 103-144, 158-199) as ASTs of Jinja nodes
      ([JText], [JOut], [JIf], [JFor]) whose text pieces are verbatim;
      [render], Jinja's semantics of those constructs (Undefined prints
      as nothing, no autoescape); markupsafe's [striptags] with its two
      loops by well-founded recursion (Equations) and [html.unescape] as
      the interface [HtmlUnescape]; the post dict as the templates see it
      ([post_value]); rendered text as code points and its UTF-8 bytes;
      the instance [jinja_templates] of [Templates] that [Writer] uses.
    - PyInt.v: Python's [int()] on a string and [str()] of an int, with
      the digits of a number by well-founded recursion (Equations).
    - Todo.v (Module [Todo]): the task dict, the file [todos.json] as a
      [Stored] value, every method of [TodoManager] and [main] as [PyM]
      methods, one invocation as [run], the tool across invocations as
      the step relation [todo_step], and [todo_spec], the behaviour of
      each command line as the help text and messages describe it.
    - Organizer.v (Module [Organizer]): the file system (a [gmap] of
      regular files and a [gset] of directories), [get_file_category],
      the name-conflict loop with its fuel, every method of
      [FileOrganizer] and [main]; [mkdir] and [shutil.move] failures come
      from the interface [OrgOS].
    - Args.v (Module [Argparse]): [ArgumentParser.parse_args] of
      CPython 3.11 (the installed interpreter) for the argument kinds the
      programs declare: [help], [store] with one argument, [store_true]
      and one optional positional.  Its two phases are kept apart as in
      argparse.py: [classify] turns the words into option and argument
      tokens ([_parse_optional], abbreviations, [--opt=value], joined
      short options, negative-number words), [consume_loop] consumes
      them ([consume_optional] with chained single-dash flags,
      [consume_positionals], the final [unrecognized arguments] check).
    - Cli.v (Module [Cli]): the two parsers as data ([blog_parser],
      [org_parser]) and the two [main] functions over [parse_args]
      ([blog_main] runs [Writer.main], [org_main] runs [Organizer.run]);
      [-h] and usage errors are the values of [Exit].
    - App.v (Module [App]): the two handlers and the route table.

    ** What is proved

    - The collection (Pipeline.v): [process_posts] leaves exactly the
      documents that assemble, sorted by date newest first, equal dates in
      discovery order, the only list meeting the contract of spec section
      4.4; it never raises and reports every failing document once.
    - Sorting (Sorting.v): [sort_desc] is sorted, a permutation and
      stable, and any list with these three properties equals it.
    - The parser (Frontmatter.v): the value of every key on every branch
      and the typing invariant of the dict, the spec's example and three
      places where code and spec part ways.
    - Slugs (Slug.v): every slug is well formed, well-formed strings are
      fixpoints, slug derivation is idempotent, the spec's examples.
    - Output (Writer.v): the files written on every path: none without
      posts, pages then index then stylesheet otherwise; a shared slug
      leaves the oldest post's page; the first failing write aborts.
    - Pages (Templates.v): both templates render on every input; in a
      run where writes succeed, every post's index entry links to
      [posts/<slug>.html], the page written there, which links back to
      [../index.html]; every excerpt is at most 200 characters, the
      whole stripped body below 200 (spec section 8); a tag cut by the
      200-character slice stays in the excerpt; titles are not escaped.
    - Todo (Todo.v): [main] refines [todo_spec] on every command line and
      file, and never raises; every sequence of runs keeps the tasks well
      formed (rule induction on [todo_step]); without deletions the ids
      are 1..n, and with one they can repeat (the id is
      [len(self.todos) + 1]); an id printed by [list] is read back by
      [complete] ([int(str(z)) = z]); a corrupt file is silently replaced;
      from every file the empty list is reachable, [n] deletions emptying
      [n] tasks.
    - Organizer (Organizer.v): the conflict loop always ends on a free
      name; a dry run changes nothing; no run loses or overwrites a file;
      on a reliable system every file is filed in its category and
      counted; a regular file named like a category blocks it, depending
      on the listing order.
    - Command lines (Cli.v): every blog command line made of settings
      of [--source]/[--output] in any spelling argparse accepts parses,
      and the last setting of each option wins (a round trip from the
      settings to the namespace); the errors and the help at the edges
      (a directory starting with ['-'] after [--source], a missing value,
      [-h] before an unknown option, [-hs], an ambiguous [--=x]); the
      organizer's words parse to the first directory word and [dry_run]
      exactly when the flag occurs, in any interleaving; run with
      [--dry-run], the organizer leaves the file system unchanged.

    Witnesses apply each theorem with hypotheses to concrete inputs; the
    instances [markdown_verbatim], [templates_dates], [storage_ok],
    [storage_refusing], [unescape_plain] and [os_reliable] stand for the
    external libraries there.

    ** Bounds, fuel and what is left out

    Only the organizer's name-conflict loop needs fuel: it runs at most
    (number of existing paths + 2) rounds, and [resolve_conflict_fresh]
    proves that enough, the candidate names [stem_k.ext] being pairwise
    distinct.  Every other loop runs over a finite list or string and is
    a structural recursion (argparse's consume loop on the token list,
    its chained-flag loop on the characters of the word); the digits of a number use well-founded
    recursion, and so do the two loops of [striptags], on the length of
    the text, which each round shortens.  Strings are limited to Latin-1
    code points, except rendered pages, which are lists of code points
    (the templates hold [←], [→] and an emoji); UTF-8 decoding of the
    blog's files is the [entry_text] of a directory entry.  Integers
    (task ids) are unbounded, as Python's are.  Not modelled: the
    [markdown] package (the interface [Markdown]); the HTML5 entity table
    of [html.unescape] (only its laws); Jinja's features the templates do
    not use (filters other than [safe] and [striptags], autoescape,
    macros); of [argparse], the usage and help texts, and the argument
    kinds ([nargs] other than one and ['?'], [append], [count],
    subparsers, [fromfile_prefix_chars]) the programs do not declare;
    [sys.argv] is the list of words the shell passes; JSON encoding (a file
    holds what [save_todos] wrote, or text that is not JSON); [print] and
    I/O failures other than those named; the clock ([today], [now] are
    parameters); Litestar's dispatch and serialization. *)

From stdpp Require Export base list strings gmap sorting.
From Stdlib Require Export Ascii.

(** ** The development's scope and notations *)

Declare Scope py_scope.
Delimit Scope py_scope with py.

(** ** Results of fallible Python calls

    A call that may raise is modelled as a [result]: [Ok] carries the
    value, [Err] the message of the exception ([str(e)]). *)
Inductive result (A : Type) : Type :=
| Ok (a : A)
| Err (msg : string).
Arguments Ok {A} a.
Arguments Err {A} msg.

Definition rbind {A B} (m : result A) (k : A -> result B) : result B :=
  match m with
  | Ok a => k a
  | Err e => Err e
  end.

Notation "'let*' x ':=' m 'in' k" := (rbind m (fun x => k))
  (at level 10, x name, m at level 100, k at level 200) : py_scope.

Definition is_ok {A} (r : result A) : bool :=
  match r with Ok _ => true | Err _ => false end.

Lemma rbind_Ok {A B} (m : result A) (k : A -> result B) b :
  rbind m k = Ok b <-> exists a, m = Ok a /\ k a = Ok b.
Proof. destruct m; simpl; split; [eauto|intros (?&?&?); congruence|done|]. by intros (?&?&?). Qed.

(** ** Automation shared by the components *)

Create HintDb py.

Ltac invc H := inversion H; subst; clear H.

(** Split the boolean connectives of a hypothesis or goal. *)
Ltac bool_split :=
  repeat match goal with
  | H : (_ && _)%bool = true |- _ => apply andb_prop in H as [? ?]
  | H : (_ || _)%bool = false |- _ => apply orb_false_elim in H as [? ?]
  | |- (_ && _)%bool = true => apply andb_true_intro; split
  end.

(** ** Generic list lemmas *)

Section fold_invariant.
Context {A S : Type} (step : S -> A -> S) (I : S -> Prop).

(** A property kept by every step of a [for] loop holds after it. *)
Lemma fold_left_invariant (xs : list A) (s : S) :
  I s -> (forall s' x, I s' -> x ∈ xs -> I (step s' x)) -> I (fold_left step xs s).
Proof.
  revert s. induction xs as [|x xs IH]; intros s Hs Hstep; simpl; [done|].
  apply IH; [apply Hstep; [done|left]|].
  intros s' y Hy Hin. apply Hstep; [done|by right].
Qed.
End fold_invariant.

Lemma match_list_nonempty {A B} (l : list A) (x y : B) :
  l <> [] -> match l with [] => x | _ :: _ => y end = y.
Proof. by destruct l. Qed.

Lemma fold_left_app_snoc {A B} (f : A -> B) (xs : list A) (acc : list B) :
  fold_left (fun l x => l ++ [f x]) xs acc = acc ++ map f xs.
Proof.
  revert acc. induction xs as [|x xs IH]; intros acc; simpl.
  - by rewrite app_nil_r.
  - rewrite IH, <- app_assoc. done.
Qed.

(** Python's [s in t] on sequences: [s] occurs contiguously in [t]. *)
Definition occurs_in {A} (s t : list A) : Prop := exists a b, t = a ++ s ++ b.

#[export] Instance occurs_in_preorder {A} : PreOrder (@occurs_in A).
Proof.
  split; [intros s; exists [], []; by rewrite app_nil_r|].
  intros s t v (a & b & ->) (c & d & ->). exists (c ++ a), (b ++ d). by rewrite <- !app_assoc.
Qed.

Lemma occurs_in_app {A} (a s b : list A) : occurs_in s (a ++ s ++ b).
Proof. by exists a, b. Qed.

Lemma occurs_in_app_l {A} (s t a : list A) : occurs_in s t -> occurs_in s (a ++ t).
Proof. intros (c & d & ->). exists (a ++ c), d. by rewrite <- app_assoc. Qed.

#[export] Hint Resolve occurs_in_app occurs_in_app_l : py.

(** A mark found between two pieces: the end of the one, what is between,
    the start of the other. *)
Lemma occurs_in_join {A} (x m z a c : list A) :
  x `suffix_of` a -> z `prefix_of` c -> occurs_in (x ++ m ++ z) (a ++ m ++ c).
Proof. intros [a0 ->] [c0 ->]. exists a0, c0. by rewrite <- !app_assoc. Qed.

Fixpoint occurs_inb `{EqDecision A} (s t : list A) : bool :=
  bool_decide (s `prefix_of` t) || match t with [] => false | _ :: t' => occurs_inb s t' end.

Lemma occurs_inb_spec `{EqDecision A} (s t : list A) : occurs_inb s t = true <-> occurs_in s t.
Proof.
  induction t as [|y t IH]; simpl; rewrite orb_true_iff, bool_decide_eq_true.
  - split; [intros [[k Hk]|[=]]; by exists [], k|].
    intros ([|??] & b & Hb); [|done]. left. by exists b.
  - rewrite IH. split.
    + intros [[k Hk]|(a & b & ->)]; [by exists [], k|by exists (y :: a), b].
    + intros ([|z a] & b & Hb); [left; by exists b|right].
      injection Hb as -> ->. by exists a, b.
Qed.

#[export] Instance occurs_in_dec `{EqDecision A} : RelDecision (@occurs_in A) :=
  fun s t =>
    match occurs_inb s t as b return occurs_inb s t = b -> Decision (occurs_in s t) with
    | true => fun H => left (proj1 (occurs_inb_spec s t) H)
    | false => fun H => right (fun Ho => diff_false_true (eq_trans (eq_sym H) (proj2 (occurs_inb_spec s t) Ho)))
    end eq_refl.

(** Close a statement about one character by evaluating it on all 256. *)
Ltac by_all_chars :=
  let c := fresh "c" in
  intros c; destruct c as [[] [] [] [] [] [] [] []]; reflexivity.

(** ** Python methods: state, effects and exceptions

    [PyM S A] is a method run on the state [S] (the object and the outside
    world it acts on) that returns an [A] or raises.  An exception keeps
    the state reached so far: effects performed before the [raise] (a
    file written, a line printed) stay done.  The monad's [mret]/[mbind]
    instances give stdpp's notations [x ← m; k] and [m;; k]. *)
Definition PyM (S A : Type) : Type := S -> S * result A.

#[export] Instance PyM_ret {S} : MRet (PyM S) := fun A a s => (s, Ok a).
#[export] Instance PyM_bind {S} : MBind (PyM S) :=
  fun A B k m s =>
    let '(s', r) := m s in
    match r with
    | Ok a => k a s'
    | Err e => (s', Err e)
    end.

Definition py_raise {S A} (e : string) : PyM S A := fun s => (s, Err e).
Definition py_gets {S A} (f : S -> A) : PyM S A := fun s => (s, Ok (f s)).
Definition py_modify {S} (f : S -> S) : PyM S unit := fun s => (f s, Ok tt).
Definition py_lift {S A} (r : result A) : PyM S A := fun s => (s, r).

(** [try: m except Exception as e: h(e)]. *)
Definition py_try {S A} (m : PyM S A) (h : string -> PyM S A) : PyM S A :=
  fun s =>
    let '(s', r) := m s in
    match r with
    | Ok a => (s', Ok a)
    | Err e => h e s'
    end.

(** [for x in xs: f(x)]. *)
Fixpoint py_for {S A} (xs : list A) (f : A -> PyM S unit) : PyM S unit :=
  match xs with
  | [] => mret tt
  | x :: xs' => f x;; py_for xs' f
  end.

Lemma bind_run {S A B} (m : PyM S A) (k : A -> PyM S B) s :
  (m ≫= k) s = let '(s', r) := m s in match r with Ok a => k a s' | Err e => (s', Err e) end.
Proof. reflexivity. Qed.

Lemma ret_run {S A} (a : A) (s : S) : (mret a : PyM S A) s = (s, Ok a).
Proof. reflexivity. Qed.

(** Run the first step of a sequence whose outcome is known. *)
Lemma bind_ok {S A B} (m : PyM S A) (k : A -> PyM S B) s s' a :
  m s = (s', Ok a) -> (m ≫= k) s = k a s'.
Proof. intros Hm. rewrite bind_run, Hm. done. Qed.

Lemma bind_err {S A B} (m : PyM S A) (k : A -> PyM S B) s s' e :
  m s = (s', Err e) -> (m ≫= k) s = (s', Err e).
Proof. intros Hm. rewrite bind_run, Hm. done. Qed.

(** [py_seq tac]: replace [(m ≫= k) s] by [k a s'], [tac] giving the run
    of [m]. *)
Tactic Notation "py_seq" tactic3(tac) := erewrite bind_ok; [|tac].

(** A loop whose body never raises is a left fold of its state change. *)
Lemma py_for_total {S A} (xs : list A) (f : A -> PyM S unit) (g : S -> A -> S) s :
  (forall x s', x ∈ xs -> f x s' = (g s' x, Ok tt)) ->
  py_for xs f s = (fold_left g xs s, Ok tt).
Proof.
  revert s. induction xs as [|x xs IH]; intros s Hf; [done|].
  simpl. rewrite bind_run, Hf by (left). apply IH. intros y s' Hy. apply Hf. by right.
Qed.

(** ** Methods that never raise

    [no_raise m]: from every state, [m] returns normally.  The lemmas
    below, in the [py] database, prove it for a method from its parts. *)
Definition no_raise {S A} (m : PyM S A) : Prop := forall s, is_ok (m s).2 = true.

Lemma no_raise_ret {S A} (a : A) : no_raise (mret a : PyM S A).
Proof. done. Qed.

Lemma no_raise_gets {S A} (f : S -> A) : no_raise (py_gets f).
Proof. done. Qed.

Lemma no_raise_modify {S} (f : S -> S) : no_raise (py_modify f).
Proof. done. Qed.

Lemma no_raise_bind {S A B} (m : PyM S A) (k : A -> PyM S B) :
  no_raise m -> (forall a, no_raise (k a)) -> no_raise (m ≫= k).
Proof.
  intros Hm Hk s. rewrite bind_run. specialize (Hm s).
  destruct (m s) as [s' [a|e]]; [apply Hk|done].
Qed.

Lemma no_raise_for {S A} (xs : list A) (f : A -> PyM S unit) :
  (forall x, no_raise (f x)) -> no_raise (py_for xs f).
Proof.
  intros Hf. induction xs as [|x xs IH]; simpl; [apply no_raise_ret|].
  apply no_raise_bind; [apply Hf|done].
Qed.

(** A [try] whose handler never raises never raises. *)
Lemma no_raise_try {S A} (m : PyM S A) (h : string -> PyM S A) :
  (forall e, no_raise (h e)) -> no_raise (py_try m h).
Proof. intros Hh s. unfold py_try. destruct (m s) as [s' [a|e]]; [done|apply Hh]. Qed.

#[export] Hint Resolve no_raise_ret no_raise_gets no_raise_modify no_raise_for no_raise_try : py.

(** Split a method into its steps, cases on the values it inspects, and
    close the steps with the [py] database. *)
Ltac no_raise_steps :=
  repeat first
    [ progress eauto with py
    | apply no_raise_bind; [|intros ?]
    | case_match ].

(** ** Methods that keep a relation between the states before and after

    [py_preserves R m]: every run of [m], normal or raising, ends in a
    state related by [R] to the one it started from.  With [R] a preorder
    (a quantity kept, a part of the state left alone) the lemmas below
    prove it for a method from its steps. *)
Section Preserves.
Context {S : Type} (R : relation S) `{!PreOrder R}.

Definition py_preserves {A} (m : PyM S A) : Prop := forall s, R s (m s).1.

Lemma preserves_ret {A} (a : A) : py_preserves (mret a).
Proof. intros s. simpl. reflexivity. Qed.

Lemma preserves_gets {A} (f : S -> A) : py_preserves (py_gets f).
Proof. intros s. simpl. reflexivity. Qed.

Lemma preserves_raise {A} e : py_preserves (py_raise (A:=A) e).
Proof. intros s. simpl. reflexivity. Qed.

Lemma preserves_lift {A} (r : result A) : py_preserves (py_lift r).
Proof. intros s. simpl. reflexivity. Qed.

Lemma preserves_modify (f : S -> S) : (forall s, R s (f s)) -> py_preserves (py_modify f).
Proof. intros Hf s. apply Hf. Qed.

Lemma preserves_bind {A B} (m : PyM S A) (k : A -> PyM S B) :
  py_preserves m -> (forall a, py_preserves (k a)) -> py_preserves (m ≫= k).
Proof.
  intros Hm Hk s. rewrite bind_run. specialize (Hm s).
  destruct (m s) as [s' [a|e]]; simpl in *; [|done]. etrans; [exact Hm|apply Hk].
Qed.

Lemma preserves_try {A} (m : PyM S A) (h : string -> PyM S A) :
  py_preserves m -> (forall e, py_preserves (h e)) -> py_preserves (py_try m h).
Proof.
  intros Hm Hh s. unfold py_try. specialize (Hm s).
  destruct (m s) as [s' [a|e]]; simpl in *; [done|]. etrans; [exact Hm|apply Hh].
Qed.

Lemma preserves_for {A} (xs : list A) (f : A -> PyM S unit) :
  (forall x, py_preserves (f x)) -> py_preserves (py_for xs f).
Proof.
  intros Hf. induction xs as [|x xs IH]; simpl; [apply preserves_ret|].
  apply preserves_bind; [apply Hf|done].
Qed.

End Preserves.

#[export] Hint Resolve preserves_ret preserves_gets preserves_raise preserves_lift : py.

(** Split a method into its steps and cases, leaving the state changes. *)
Ltac preserves_steps :=
  repeat first
    [ progress eauto with py typeclass_instances
    | apply preserves_bind; [typeclasses eauto| |intros ?]
    | apply preserves_try; [typeclasses eauto| |intros ?]
    | apply preserves_for; [typeclasses eauto|intros ?]
    | case_match ].
