(* ===== verification/PyStr.v ===== *)
(** * Python [str] primitives used by the sources

    The sources manipulate Python 3 strings, which are sequences of Unicode
    code points.  The development represents a string as a Rocq [string]
    whose characters are the code points U+0000 to U+00FF (Latin-1): every
    character classification below is Python's own on that range
    ([str.isspace] / regex [\s], [str.isalnum] / regex [\w], [str.lower]).
    Texts with code points above U+00FF are outside the model.

    Each definition states the Python operation it stands for; they are the
    runtime the component files are written against. *)

From S2P Require Import Prelude.

(** ** Character classes *)

(** Code point of a character. *)
Definition cp (c : ascii) : nat := nat_of_ascii c.

Definition in_range (lo hi n : nat) : bool := Nat.leb lo n && Nat.leb n hi.

(** [Py_UNICODE_ISSPACE], used by [str.strip()], [str.split()] and the
    regex class [\s]: TAB..CR, the separators FS..US, SPACE, NEL, NBSP. *)
Definition is_space (c : ascii) : bool :=
  let n := cp c in
  in_range 9 13 n || in_range 28 32 n || Nat.eqb n 133 || Nat.eqb n 160.

(** [Py_UNICODE_ISALNUM]: letters (Lu, Ll, Lo), decimal digits and the
    numeric characters ²³¹¼½¾ of Latin-1. *)
Definition is_alnum (c : ascii) : bool :=
  let n := cp c in
  in_range 48 57 n || in_range 65 90 n || in_range 97 122 n
  || Nat.eqb n 170 || in_range 178 179 n || Nat.eqb n 181
  || in_range 185 186 n || in_range 188 190 n
  || in_range 192 214 n || in_range 216 246 n || in_range 248 255 n.

(** The regex class [\w] on [str] patterns: alphanumerics and [_]. *)
Definition is_word (c : ascii) : bool := is_alnum c || Nat.eqb (cp c) 95.

(** [str.lower] on one character: A..Z and À..Þ (but not ×) move by 32. *)
Definition lower_char (c : ascii) : ascii :=
  let n := cp c in
  if in_range 65 90 n || in_range 192 214 n || in_range 216 222 n
  then ascii_of_nat (n + 32) else c.

(** ** Operations on whole strings *)

Fixpoint str_map (f : ascii -> ascii) (s : string) : string :=
  match s with
  | EmptyString => EmptyString
  | String c s' => String (f c) (str_map f s')
  end.

Fixpoint str_filter (p : ascii -> bool) (s : string) : string :=
  match s with
  | EmptyString => EmptyString
  | String c s' => if p c then String c (str_filter p s') else str_filter p s'
  end.

Fixpoint str_forallb (p : ascii -> bool) (s : string) : bool :=
  match s with
  | EmptyString => true
  | String c s' => p c && str_forallb p s'
  end.

Fixpoint str_existsb (p : ascii -> bool) (s : string) : bool :=
  match s with
  | EmptyString => false
  | String c s' => p c || str_existsb p s'
  end.

(** [str.lower()]. *)
Definition py_lower (s : string) : string := str_map lower_char s.

(** [str.lstrip] and [str.rstrip] for the set of characters [p]. *)
Fixpoint lstrip_by (p : ascii -> bool) (s : string) : string :=
  match s with
  | EmptyString => EmptyString
  | String c s' => if p c then lstrip_by p s' else s
  end.

Fixpoint rstrip_by (p : ascii -> bool) (s : string) : string :=
  match s with
  | EmptyString => EmptyString
  | String c s' =>
      let r := rstrip_by p s' in
      match r with
      | EmptyString => if p c then EmptyString else String c EmptyString
      | _ => String c r
      end
  end.

Definition strip_by (p : ascii -> bool) (s : string) : string :=
  rstrip_by p (lstrip_by p s).

(** [str.strip()]: whitespace at both ends. *)
Definition py_strip (s : string) : string := strip_by is_space s.

(** [str.strip(chars)]: the characters of [chars] at both ends. *)
Definition strip_chars (chars : list ascii) (s : string) : string :=
  strip_by (fun c => bool_decide (c ∈ chars)) s.

(** [str.split(sep)] for a one-character separator: always at least one
    piece, [n+1] pieces for [n] occurrences of [sep]. *)
Fixpoint split_char (sep : ascii) (s : string) : list string :=
  match s with
  | EmptyString => [EmptyString]
  | String c s' =>
      let parts := split_char sep s' in
      if Ascii.eqb c sep then EmptyString :: parts
      else match parts with
           | p :: ps => String c p :: ps
           | [] => [String c EmptyString]
           end
  end.

(** [s.split(sep, 1)] when [sep in s] holds; [None] when it does not. *)
Fixpoint split_once (sep : ascii) (s : string) : option (string * string) :=
  match s with
  | EmptyString => None
  | String c s' =>
      if Ascii.eqb c sep then Some (EmptyString, s')
      else match split_once sep s' with
           | Some (k, v) => Some (String c k, v)
           | None => None
           end
  end.

(** [s[i:j]] and [s[i:]] for indices [0 <= i]: Python clamps both bounds to
    the length, and so does [String.substring]. *)
Definition py_slice (s : string) (i j : nat) : string := String.substring i (j - i) s.
Definition py_slice_from (s : string) (i : nat) : string :=
  String.substring i (String.length s - i) s.

(** [s.index(sub, start)]: the first position [>= start] of [sub];
    [None] stands for the [ValueError] it raises.  [String.index] has the
    same convention as Python for [start] past the end. *)
Definition py_index (s sub : string) (start : nat) : option nat := String.index start sub s.

(** [s.startswith(prefix)]. *)
Definition py_startswith (s prefix : string) : bool := String.prefix prefix s.

(** First and last characters, for statements about the ends of a string. *)
Definition str_head (s : string) : option ascii :=
  match s with EmptyString => None | String c _ => Some c end.

Fixpoint str_last (s : string) : option ascii :=
  match s with
  | EmptyString => None
  | String c EmptyString => Some c
  | String _ s' => str_last s'
  end.

(** ** Lemmas *)

Lemma lower_char_idem c : lower_char (lower_char c) = lower_char c.
Proof. destruct c as [[] [] [] [] [] [] [] []]; reflexivity. Qed.

Lemma str_forallb_map p f s :
  str_forallb p (str_map f s) = str_forallb (fun c => p (f c)) s.
Proof. induction s as [|c s IH]; simpl; [done|by rewrite IH]. Qed.

Lemma str_forallb_filter p s : str_forallb p (str_filter p s) = true.
Proof. induction s as [|c s IH]; simpl; [done|]. destruct (p c) eqn:E; simpl; by rewrite ?E. Qed.

Lemma str_forallb_filter_keep p q s :
  str_forallb q s = true -> str_forallb q (str_filter p s) = true.
Proof.
  induction s as [|c s IH]; simpl; [done|]. intros H; bool_split.
  destruct (p c); simpl; bool_split; auto.
Qed.

Lemma str_forallb_impl (p q : ascii -> bool) s :
  (forall c, p c = true -> q c = true) -> str_forallb p s = true -> str_forallb q s = true.
Proof. intros Hpq. induction s as [|c s IH]; simpl; [done|]. intros H; bool_split; auto. Qed.

Lemma str_filter_id p s : str_forallb p s = true -> str_filter p s = s.
Proof.
  induction s as [|c s IH]; simpl; [done|]. intros H; bool_split.
  rewrite H, IH; done.
Qed.

Lemma str_map_id f s :
  str_forallb (fun c => Ascii.eqb (f c) c) s = true -> str_map f s = s.
Proof.
  induction s as [|c s IH]; simpl; [done|]. intros H; bool_split.
  apply Ascii.eqb_eq in H. rewrite H, IH; done.
Qed.

#[export] Hint Resolve str_forallb_filter str_forallb_filter_keep : py.

(** The two halves of [strip_by]. *)

Lemma lstrip_by_head p s :
  match str_head (lstrip_by p s) with Some c => p c = false | None => True end.
Proof. induction s as [|c s IH]; simpl; [done|]. destruct (p c) eqn:E; simpl; auto. Qed.

Lemma rstrip_by_empty p s :
  rstrip_by p s = EmptyString <-> str_forallb p s = true.
Proof.
  induction s as [|c s IH]; simpl; [done|].
  destruct (rstrip_by p s) eqn:E.
  - destruct (p c); simpl; [|by split].
    split; [intros _; by apply IH|done].
  - split; [discriminate|]. intros H; bool_split. apply IH in H0. discriminate.
Qed.

Lemma rstrip_by_last p s :
  match str_last (rstrip_by p s) with Some c => p c = false | None => True end.
Proof.
  induction s as [|c s IH]; simpl; [done|].
  destruct (rstrip_by p s) as [|d r] eqn:E.
  - destruct (p c) eqn:Ec; simpl; auto.
  - simpl in *. exact IH.
Qed.

Lemma rstrip_by_head p s :
  str_head (rstrip_by p s) = None \/ str_head (rstrip_by p s) = str_head s.
Proof.
  destruct s as [|c s]; simpl; [by left|].
  destruct (rstrip_by p s); [destruct (p c)|]; simpl; auto.
Qed.

Lemma str_forallb_rstrip p q s :
  str_forallb q s = true -> str_forallb q (rstrip_by p s) = true.
Proof.
  induction s as [|c s IH]; simpl; [done|]. intros H; bool_split.
  destruct (rstrip_by p s) as [|a r] eqn:E.
  - destruct (p c); simpl; rewrite ?H; done.
  - change (q c && str_forallb q (String a r) = true). rewrite H. by apply IH.
Qed.

Lemma str_forallb_lstrip p q s :
  str_forallb q s = true -> str_forallb q (lstrip_by p s) = true.
Proof.
  induction s as [|c s IH]; simpl; [done|]. intros H; bool_split.
  destruct (p c); simpl; bool_split; auto.
Qed.

Lemma lstrip_by_id p s :
  match str_head s with Some c => p c = false | None => True end -> lstrip_by p s = s.
Proof. destruct s as [|c s]; simpl; [done|]. by intros ->. Qed.

Lemma rstrip_by_id p s :
  match str_last s with Some c => p c = false | None => True end -> rstrip_by p s = s.
Proof.
  induction s as [|c s IH]; simpl; [done|].
  destruct s as [|d s].
  - simpl. by intros ->.
  - intros H. rewrite IH by exact H. done.
Qed.

(** [strip_by] leaves a string alone when neither end is stripped. *)
Lemma strip_by_id p s :
  match str_head s with Some c => p c = false | None => True end ->
  match str_last s with Some c => p c = false | None => True end ->
  strip_by p s = s.
Proof. intros Hh Hl. unfold strip_by. rewrite lstrip_by_id by done. by apply rstrip_by_id. Qed.

Lemma strip_by_ends p s :
  match str_head (strip_by p s) with Some c => p c = false | None => True end /\
  match str_last (strip_by p s) with Some c => p c = false | None => True end.
Proof.
  unfold strip_by. split; [|apply rstrip_by_last].
  pose proof (lstrip_by_head p s) as H.
  destruct (rstrip_by_head p (lstrip_by p s)) as [-> | ->]; done.
Qed.

Lemma str_forallb_strip p q s :
  str_forallb q s = true -> str_forallb q (strip_by p s) = true.
Proof. intros H. unfold strip_by. by apply str_forallb_rstrip, str_forallb_lstrip. Qed.

#[export] Hint Resolve str_forallb_strip str_forallb_lstrip str_forallb_rstrip : py.

Lemma str_forallb_andb p q s :
  str_forallb (fun c => p c && q c) s = str_forallb p s && str_forallb q s.
Proof.
  induction s as [|c s IH]; simpl; [done|]. rewrite IH.
  destruct (p c), (q c), (str_forallb p s); done.
Qed.

Lemma str_forallb_cons_inv p c s :
  str_forallb p (String c s) = true -> p c = true /\ str_forallb p s = true.
Proof. simpl. intros H. by apply andb_prop in H. Qed.

(** A newline, and ["\n".join(lines)]: documents written line by line. *)
Definition nl : string := String "010" EmptyString.
Definition join_lines (lines : list string) : string := String.concat nl lines.

(** ** File names ([pathlib.PurePath], POSIX, Python 3.8 to 3.13) *)

(** [s.rfind(c)]: the last position of [c]. *)
Fixpoint rfind_char (c : ascii) (s : string) : option nat :=
  match s with
  | EmptyString => None
  | String d s' =>
      match rfind_char c s' with
      | Some i => Some (S i)
      | None => if Ascii.eqb d c then Some 0 else None
      end
  end.

(** The position of the dot that starts [PurePath.suffix]: the last dot,
    when it is neither the first nor the last character of the name. *)
Definition suffix_index (name : string) : option nat :=
  match rfind_char "." name with
  | Some i => if Nat.ltb 0 i && Nat.ltb i (String.length name - 1) then Some i else None
  | None => None
  end.

(** [PurePath.suffix] and [PurePath.stem]. *)
Definition path_suffix (name : string) : string :=
  match suffix_index name with Some i => py_slice_from name i | None => EmptyString end.
Definition path_stem (name : string) : string :=
  match suffix_index name with Some i => py_slice name 0 i | None => name end.

(** [fnmatch] of a name against ['*' + suf] on POSIX (case-sensitive). *)
Definition ends_with (s suf : string) : bool :=
  String.eqb (py_slice_from s (String.length s - String.length suf)) suf.

(** [PurePosixPath(s).parts]: the root of [posixpath.splitroot] ("/"
    for one or three and more leading slashes, "//" for exactly two), then
    the pieces of the rest split at "/", without the empty ones and ".";
    [Path('')] and [Path('.')] have no parts. *)
Definition split_root (s : string) : string * string :=
  match s with
  | String "/" r =>
      match r with
      | String "/" r' => match r' with String "/" _ => ("/", r) | _ => ("//", r') end
      | _ => ("/", r)
      end
  | _ => (EmptyString, s)
  end.

Definition py_path (s : string) : list string :=
  let '(root, rel) := split_root s in
  (if String.eqb root EmptyString then [] else [root]) ++
  filter (fun x => negb (String.eqb x EmptyString) && negb (String.eqb x ".")) (split_char "/" rel).

(** ** Concatenation *)

Lemma str_length_app (a b : string) : String.length (a +:+ b) = String.length a + String.length b.
Proof. induction a as [|c a IH]; simpl; by rewrite ?IH. Qed.

(** Two names with the same extension are equal when the results are. *)
Lemma str_app_inj_r (a b c : string) : a +:+ c = b +:+ c -> a = b.
Proof.
  revert b. induction a as [|x a IH]; intros [|y b] H; simpl in H; try done.
  - apply (f_equal String.length) in H. rewrite ?str_length_app in H. simpl in H. rewrite ?str_length_app in H. lia.
  - apply (f_equal String.length) in H. rewrite ?str_length_app in H. simpl in H. rewrite ?str_length_app in H. lia.
  - injection H as -> H. f_equal. by apply IH.
Qed.

Lemma str_forallb_head p s :
  str_forallb p s = true -> match str_head s with Some c => p c = true | None => True end.
Proof. destruct s as [|c s]; simpl; [done|]. intros H; bool_split. done. Qed.

Lemma str_forallb_last p s :
  str_forallb p s = true -> match str_last s with Some c => p c = true | None => True end.
Proof.
  induction s as [|c s IH]; simpl; [done|]. intros H; bool_split.
  destruct s as [|d s]; [done|]. by apply IH.
Qed.

(** [strip] leaves a string without stripped characters unchanged. *)
Lemma strip_by_none p s : str_forallb (fun c => negb (p c)) s = true -> strip_by p s = s.
Proof.
  intros H. apply strip_by_id.
  - apply str_forallb_head in H. destruct (str_head s); [by apply negb_true_iff|done].
  - apply str_forallb_last in H. destruct (str_last s); [by apply negb_true_iff|done].
Qed.

Lemma py_lower_idem s : py_lower (py_lower s) = py_lower s.
Proof. unfold py_lower in *. induction s as [|c s IH]; simpl; [done|]. by rewrite lower_char_idem, IH. Qed.

Lemma str_app_inj_l (a b c : string) : a +:+ b = a +:+ c -> b = c.
Proof. induction a as [|x a IH]; simpl; [done|]. intros [= H]. by apply IH. Qed.
