(* ===== verification/Args.v ===== *)
(** * Python's argparse, for the arguments the two command-line tools declare

    [ArgumentParser.parse_args] of CPython 3.11, restricted to what
    blog_generator.py (lines 414-418) and organizer.py (lines 125-149)
    declare: optionals whose action is [help] (added by the parser),
    ['store'] with one value or ['store_true'], and at most one
    positional with [nargs='?'].  No type conversion, choices, required
    arguments, mutually exclusive groups or [fromfile_prefix_chars]
    occur; [prefix_chars] is ['-'] and [allow_abbrev] is true.

    The parse runs in the library's two phases:
    - [classify] is the loop building [arg_strings_pattern]: every word
      after the first ['--'] is an argument; any other word goes through
      [_parse_optional], which may already raise the ambiguity error;
    - [consume_loop] is the loop of [_parse_known_args]: an option takes
      its value (or runs joined single-dash flags); a word before a later
      option fills the positional if it is still open, and is an extra
      otherwise; after the last option, the positional's pattern
      [-*A?-*] takes what it can and the rest are extras, which
      [parse_args] reports as [unrecognized arguments].
    [parse_args] ends in a namespace, in the [help] exit (status 0), or in
    a usage error (status 2). *)

From S2P Require Import Prelude.
From S2P Require Import PyStr.

Module Argparse.
Local Open Scope string_scope.
Local Open Scope list_scope.

(** ** Parsers *)

Inductive AVal : Type := VStr (s : string) | VBool (b : bool).

Inductive ActionKind : Type := AHelp | AStore | AStoreTrue.

(** An optional argument: its option strings in the order given, its
    [dest], its action and its default ([None] is [argparse.SUPPRESS]). *)
Record Optional : Type := mkOptional {
  opt_strings : list string;
  opt_dest : string;
  opt_kind : ActionKind;
  opt_default : option AVal
}.

(** A positional with [nargs='?']. *)
Record Positional : Type := mkPositional { pos_dest : string; pos_default : string }.

(** A parser: its optionals in the order of [add_argument], [-h/--help]
    first, and its positional if any. *)
Record Parser : Type := mkParser {
  optionals : list Optional;
  positional : option Positional
}.

(** The action [ArgumentParser] adds for [-h] and [--help]. *)
Definition help_action : Optional := mkOptional ["-h"; "--help"] "help" AHelp None.

(** [self._option_string_actions], in insertion order. *)
Definition option_string_actions (p : Parser) : list (string * Optional) :=
  concat (map (fun o => map (fun s => (s, o)) (opt_strings o)) (optionals p)).

Definition lookup_action (p : Parser) (s : string) : option Optional :=
  option_map snd (List.find (fun '(k, _) => String.eqb k s) (option_string_actions p)).

(** ** Classifying the words *)

(** A word argparse reads as an argument: empty or not starting with
    ['-']. *)
Definition plain (v : string) : bool :=
  match v with EmptyString => true | String c _ => negb (Ascii.eqb c "-") end.


(** A word of the command line: an argument ([A]), the first ['--']
    ([-]), or an option string with its action ([None] when no action
    has it) and its explicit argument, if any. *)
Inductive Tok : Type :=
| TArg (s : string)
| TSep
| TOpt (a : option Optional) (option_string : string) (explicit : option string).

Inductive ArgError : Type :=
| ErrAmbiguous (arg : string) (matches : list string)          (* ambiguous option: %s could match %s *)
| ErrExpectedOne (names : list string)                         (* argument %s: expected one argument *)
| ErrIgnoredExplicit (names : list string) (explicit : string) (* argument %s: ignored explicit argument %r *)
| ErrUnrecognized (args : list string).                        (* unrecognized arguments: %s *)

(** [s.split('=', 1)] when ['='] is in [s]. *)
Definition split_eq (s : string) : option (string * string) := split_once "=" s.

Definition is_digit (c : ascii) : bool := in_range 48 57 (cp c).

Definition digits1 (s : string) : bool :=
  negb (String.eqb s EmptyString) && str_forallb is_digit s.

(** [$] also matches before a final newline. *)
Definition drop_final_newline (s : string) : string :=
  match str_last s with
  | Some "010"%char => String.substring 0 (String.length s - 1) s
  | _ => s
  end.

(** [_negative_number_matcher]: [^-\d+$|^-\d*\.\d+$] ([\d] is 0-9 on
    Latin-1). *)
Definition negative_number_like (s : string) : bool :=
  match s with
  | String "-" r =>
      let r := drop_final_newline r in
      digits1 r ||
      match split_once "." r with
      | Some (a, b) => str_forallb is_digit a && digits1 b
      | None => false
      end
  | _ => false
  end.

Definition has_negative_number_optionals (p : Parser) : bool :=
  existsb (fun '(s, _) => negative_number_like s) (option_string_actions p).

(** [_get_option_tuples]: the option strings a word can abbreviate. *)
Definition option_tuples (p : Parser) (a : string) : list Tok :=
  match a with
  | String "-" (String "-" _) =>
      let '(prefix, ex) := match split_eq a with Some (k, v) => (k, Some v) | None => (a, None) end in
      map (fun '(s, o) => TOpt (Some o) s ex)
        (filter (fun '(s, _) => String.prefix prefix s) (option_string_actions p))
  | String "-" (String c rest) =>
      let short := String "-" (String c EmptyString) in
      flat_map (fun '(s, o) =>
                  if String.eqb s short then [TOpt (Some o) s (Some rest)]
                  else if String.prefix a s then [TOpt (Some o) s None] else [])
        (option_string_actions p)
  | _ => []
  end.

Definition tok_option_string (t : Tok) : string :=
  match t with TOpt _ s _ => s | TArg s => s | TSep => "--" end.

(** [_parse_optional]. *)
Definition parse_optional (p : Parser) (a : string) : ArgError + Tok :=
  match a with
  | EmptyString => inr (TArg a)
  | String c _ =>
      if negb (Ascii.eqb c "-") then inr (TArg a) else
      match lookup_action p a with
      | Some o => inr (TOpt (Some o) a None)
      | None =>
          if Nat.eqb (String.length a) 1 then inr (TArg a) else
          match (match split_eq a with
                 | Some (os, ex) => option_map (fun o => (o, os, ex)) (lookup_action p os)
                 | None => None
                 end) with
          | Some (o, os, ex) => inr (TOpt (Some o) os (Some ex))
          | None =>
              match option_tuples p a with
              | [t] => inr t
              | t1 :: t2 :: ts => inl (ErrAmbiguous a (map tok_option_string (t1 :: t2 :: ts)))
              | [] =>
                  if negative_number_like a && negb (has_negative_number_optionals p) then inr (TArg a)
                  else if str_existsb (fun c => Ascii.eqb c " ") a then inr (TArg a)
                  else inr (TOpt None a None)
              end
          end
      end
  end.

(** The loop building [arg_strings_pattern]. *)
Fixpoint classify (p : Parser) (args : list string) : ArgError + list Tok :=
  match args with
  | [] => inr []
  | a :: rest =>
      if String.eqb a "--" then inr (TSep :: map TArg rest)
      else match parse_optional p a with
           | inl e => inl e
           | inr t => match classify p rest with inl e => inl e | inr ts => inr (t :: ts) end
           end
  end.

(** ** Consuming the words *)

(** The outcome of [parse_args]: the namespace, the exit of [help]
    ([parser.exit()], status 0), or [parser.error] (status 2). *)
Inductive Outcome : Type :=
| ONs (ns : gmap string AVal)
| OHelp
| OErr (e : ArgError).

(** [take_action]: [help] prints and exits, [store] sets its value,
    [store_true] sets [True]; [None] when the run has exited. *)
Definition take_action (ns : gmap string AVal) (a : Optional * list string) : option (gmap string AVal) :=
  let '(o, args) := a in
  match opt_kind o with
  | AHelp => None
  | AStore => Some (<[opt_dest o := VStr (default EmptyString (head args))]> ns)
  | AStoreTrue => Some (<[opt_dest o := VBool true]> ns)
  end.

Fixpoint take_actions (ns : gmap string AVal) (acts : list (Optional * list string)) : option (gmap string AVal) :=
  match acts with
  | [] => Some ns
  | a :: acts' => match take_action ns a with Some ns' => take_actions ns' acts' | None => None end
  end.

(** What [consume_optional] gathers before acting: the actions with
    their arguments, and the action (if any) that takes the next word as
    its value. *)
Definition Gathered : Type := list (Optional * list string) * option Optional.

Definition gather_prepend (a : Optional * list string) (r : ArgError + Gathered) : ArgError + Gathered :=
  match r with
  | inl e => inl e
  | inr (acts, need) => inr (a :: acts, need)
  end.

(** An option without explicit argument: [store] takes the next word
    (pattern [(A)]), the others take none. *)
Definition gather_plain (o : Optional) : ArgError + Gathered :=
  match opt_kind o with
  | AStore => inr ([], Some o)
  | _ => inr ([(o, [])], None)
  end.

(** The loop of [consume_optional] on an explicit argument: [store]
    takes it; a single-dash flag given as [-xyz] runs [-x] and goes on
    with [-y] on [z]; a letter that names no option, a double-dash flag
    or an empty argument is an [ignored explicit argument]. *)
Fixpoint gather_explicit (p : Parser) (o : Optional) (os : string) (e : string) {struct e}
    : ArgError + Gathered :=
  match opt_kind o with
  | AStore => inr ([(o, [e])], None)
  | _ =>
      match e, os with
      | String c e', String _ (String c1 _) =>
          if Ascii.eqb c1 "-" then inl (ErrIgnoredExplicit (opt_strings o) e)
          else
            let os' := String "-" (String c EmptyString) in
            match lookup_action p os' with
            | None => inl (ErrIgnoredExplicit (opt_strings o) e)
            | Some o' =>
                gather_prepend (o, [])
                  (match e' with
                   | EmptyString => gather_plain o'
                   | _ => gather_explicit p o' os' e'
                   end)
            end
      | _, _ => inl (ErrIgnoredExplicit (opt_strings o) e)
      end
  end.

Definition consume_optional (p : Parser) (o : Optional) (os : string) (ex : option string)
    : ArgError + Gathered :=
  match ex with
  | None => gather_plain o
  | Some e => gather_explicit p o os e
  end.

Definition is_opt (t : Tok) : bool := match t with TOpt _ _ _ => true | _ => false end.

Fixpoint take_seps (ts : list Tok) : list Tok * list Tok :=
  match ts with
  | TSep :: ts' => let '(l, r) := take_seps ts' in (TSep :: l, r)
  | _ => ([], ts)
  end.

(** The positional's pattern [-*A?-*] at the start of the rest. *)
Definition match_positional (ts : list Tok) : list Tok * list Tok :=
  let '(l1, r1) := take_seps ts in
  let '(l2, r2) := match r1 with TArg s :: r => ([TArg s], r) | _ => ([], r1) end in
  let '(l3, r3) := take_seps r2 in
  (l1 ++ l2 ++ l3, r3).

(** [arg_strings.remove('--')]. *)
Fixpoint remove_first (x : string) (l : list string) : list string :=
  match l with
  | [] => []
  | y :: l' => if String.eqb y x then l' else y :: remove_first x l'
  end.

(** After the last option: the positional, if still open, takes its
    pattern's words (its default when there is none), and the remaining
    words join the extras; extras are an error. *)
Definition finish (pos : option Positional) (ts : list Tok) (ns : gmap string AVal) (extras : list string) : Outcome :=
  let '(ns', rest) :=
    match pos with
    | None => (ns, ts)
    | Some ps =>
        let '(taken, rest) := match_positional ts in
        let v := match remove_first "--" (map tok_option_string taken) with
                 | s :: _ => s
                 | [] => pos_default ps
                 end in
        (<[pos_dest ps := VStr v]> ns, rest)
    end in
  match extras ++ map tok_option_string rest with
  | [] => ONs ns'
  | ex => OErr (ErrUnrecognized ex)
  end.

(** The loop of [_parse_known_args] while an option lies ahead. *)
Fixpoint consume_loop (p : Parser) (ts : list Tok) (pos : option Positional)
    (ns : gmap string AVal) (extras : list string) {struct ts} : Outcome :=
  if negb (existsb is_opt ts) then finish pos ts ns extras else
  match ts with
  | [] => finish pos ts ns extras
  | TOpt None os _ :: ts' => consume_loop p ts' pos ns (extras ++ [os])
  | TOpt (Some o) os ex :: ts' =>
      match consume_optional p o os ex with
      | inl e => OErr e
      | inr (acts, None) =>
          match take_actions ns acts with
          | None => OHelp
          | Some ns' => consume_loop p ts' pos ns' extras
          end
      | inr (acts, Some o') =>
          match ts' with
          | TArg s :: ts'' =>
              match take_actions ns (acts ++ [(o', [s])]) with
              | None => OHelp
              | Some ns' => consume_loop p ts'' pos ns' extras
              end
          | _ => OErr (ErrExpectedOne (opt_strings o'))
          end
      end
  | TArg s :: ts' =>
      match pos with
      | Some ps => consume_loop p ts' None (<[pos_dest ps := VStr s]> ns) extras
      | None => consume_loop p ts' None ns (extras ++ [s])
      end
  | TSep :: _ => finish pos ts ns extras
  end.

(** The defaults set on the namespace before parsing. *)
Definition defaults (p : Parser) : gmap string AVal :=
  fold_left (fun ns o => match opt_default o with Some v => <[opt_dest o := v]> ns | None => ns end)
    (optionals p)
    (match positional p with Some ps => {[pos_dest ps := VStr (pos_default ps)]} | None => ∅ end).

(** [parser.parse_args(argv)] on [sys.argv[1:]]. *)
Definition parse_args (p : Parser) (argv : list string) : Outcome :=
  match classify p argv with
  | inl e => OErr e
  | inr ts => consume_loop p ts (positional p) (defaults p) []
  end.

(** The value of [args.<dest>]. *)
Definition ns_str (ns : gmap string AVal) (d : string) : string :=
  match ns !! d with Some (VStr s) => s | _ => EmptyString end.
Definition ns_bool (ns : gmap string AVal) (d : string) : bool :=
  match ns !! d with Some (VBool b) => b | _ => false end.

(** ** Lemmas *)

Lemma parse_optional_plain p v : plain v = true -> parse_optional p v = inr (TArg v).
Proof. destruct v as [|c v]; simpl; [done|]. intros ->. done. Qed.

Lemma plain_not_sep v : plain v = true -> String.eqb v "--" = false.
Proof. destruct v as [|c v]; [done|]. simpl. destruct (Ascii.eqb_spec c "-"); [done|]. intros _. by destruct (Ascii.eqb_spec c "-"). Qed.


(** A [store] option takes its explicit argument, whatever it is. *)
Lemma gather_explicit_store p o os e :
  opt_kind o = AStore -> gather_explicit p o os e = inr ([(o, [e])], None).
Proof. intros Hk. destruct e; simpl; by rewrite Hk. Qed.

End Argparse.
