(* ===== verification/Sorting.v ===== *)
(** * Python's [list.sort(key=k, reverse=True)] on string keys

    blog_generator.py:100 sorts the posts with
    [self.posts.sort(key=lambda x: x['date'], reverse=True)].  Python
    specifies this call as a stable sort in descending key order: "the
    reverse parameter still maintains sort stability (so that records with
    equal keys retain the original order)", keys being compared with [str]
    order (code point by code point, [String.leb] here).

    [sort_desc] is an insertion sort with that behaviour.  The file states
    the library's contract as [stable_sort_spec] (sorted, a permutation,
    and every class of equal keys in input order) and proves that
    [sort_desc] meets it and that it is the only list that does, so any
    algorithm with that contract (CPython's timsort included) returns
    exactly [sort_desc l]. *)

From S2P Require Import Prelude.

Section SortDesc.
Context {A : Type} (key : A -> string).

(** ** The model *)

(** Insert [x] after every element whose key is at least its own. *)
Fixpoint insert_desc (x : A) (l : list A) : list A :=
  match l with
  | [] => [x]
  | y :: l' => if String.leb (key x) (key y) then y :: insert_desc x l' else x :: l
  end.

(** Insert the elements in input order. *)
Definition sort_desc (l : list A) : list A :=
  fold_left (fun acc x => insert_desc x acc) l [].

(** ** The contract of [list.sort] *)

(** [x] may precede [y] in the output: its key is not smaller. *)
Definition key_ge (x y : A) : Prop := String.le (key y) (key x).

(** The elements of [l] with key [k], in order. *)
Definition with_key (k : string) (l : list A) : list A := filter (fun y => key y = k) l.

Definition stable_sort_spec (l out : list A) : Prop :=
  Sorted key_ge out /\ out ≡ₚ l /\ forall k, with_key k out = with_key k l.

(** ** Lemmas *)

#[local] Instance key_ge_trans : Transitive key_ge.
Proof. intros x y z Hxy Hyz. unfold key_ge in *. by trans (key y). Qed.

Lemma leb_le_iff a b : String.leb a b = true <-> String.le a b.
Proof. unfold String.le. by rewrite Is_true_true. Qed.

Lemma key_ge_not_leb x y : String.leb (key x) (key y) = false -> key_ge x y.
Proof.
  intros H. unfold key_ge. apply leb_le_iff.
  destruct (String.leb_total (key x) (key y)) as [E|E]; congruence.
Qed.

Lemma key_ge_leb x y : String.leb (key x) (key y) = true -> key_ge y x.
Proof. apply leb_le_iff. Qed.

Lemma insert_desc_perm x l : insert_desc x l ≡ₚ x :: l.
Proof.
  induction l as [|y l IH]; simpl; [done|].
  case_match; [|done]. rewrite IH. constructor.
Qed.

Lemma insert_desc_Forall (P : A -> Prop) x l :
  P x -> Forall P l -> Forall P (insert_desc x l).
Proof. intros Hx Hl. rewrite (insert_desc_perm x l). by constructor. Qed.

Lemma insert_desc_sorted x l :
  StronglySorted key_ge l -> StronglySorted key_ge (insert_desc x l).
Proof.
  induction l as [|y l IH]; intros Hl; simpl; [by repeat constructor|].
  apply StronglySorted_inv in Hl as [Hl Hy].
  destruct (String.leb (key x) (key y)) eqn:E.
  - constructor; [by apply IH|]. apply insert_desc_Forall; [by apply key_ge_leb|done].
  - constructor; [by constructor|]. constructor; [by apply key_ge_not_leb|].
    eapply Forall_impl; [exact Hy|]. intros z Hz. trans y; [by apply key_ge_not_leb|done].
Qed.

(** Every element of a sorted list has a key at most the head's. *)
Lemma sorted_head_max b l z :
  StronglySorted key_ge (b :: l) -> z ∈ b :: l -> String.le (key z) (key b).
Proof.
  intros Hs Hz. apply StronglySorted_inv in Hs as [_ Hb].
  apply elem_of_cons in Hz as [->|Hz]; [done|].
  rewrite Forall_forall in Hb. exact (Hb z Hz).
Qed.

(** An element with a key [k] puts [k] at most at the head's key. *)
Lemma with_key_head_max k b l z :
  StronglySorted key_ge (b :: l) -> z ∈ with_key k (b :: l) -> String.le k (key b).
Proof.
  intros Hs Hz. apply list_elem_of_filter in Hz as [<- Hz]. by eapply sorted_head_max.
Qed.

(** Behind an element with a smaller key, no element has the key of [x]. *)
Lemma with_key_below x y l :
  StronglySorted key_ge (y :: l) -> String.leb (key x) (key y) = false ->
  with_key (key x) (y :: l) = [].
Proof.
  intros Hs Hxy. destruct (with_key (key x) (y :: l)) as [|z zs] eqn:E; [done|].
  assert (Hz : z ∈ with_key (key x) (y :: l)) by (rewrite E; left).
  apply (with_key_head_max _ _ _ _ Hs), leb_le_iff in Hz. congruence.
Qed.

Lemma with_key_cons k y l :
  with_key k (y :: l) = if decide (key y = k) then y :: with_key k l else with_key k l.
Proof. unfold with_key. rewrite filter_cons. done. Qed.

Lemma with_key_app k l1 l2 : with_key k (l1 ++ l2) = with_key k l1 ++ with_key k l2.
Proof. apply filter_app. Qed.

Lemma with_key_single k x : with_key k [x] = if decide (key x = k) then [x] else [].
Proof. apply with_key_cons. Qed.

(** Inserting [x] appends it to the class of its key. *)
Lemma insert_desc_with_key k x l :
  StronglySorted key_ge l -> with_key k (insert_desc x l) = with_key k (l ++ [x]).
Proof.
  induction l as [|y l IH]; intros Hs; [done|].
  cbn [insert_desc]. destruct (String.leb (key x) (key y)) eqn:E.
  - apply StronglySorted_inv in Hs as [Hs' _].
    by rewrite <- app_comm_cons, !with_key_cons, IH.
  - rewrite with_key_cons, with_key_app, with_key_single.
    case_decide as Hk; [subst k; by rewrite with_key_below|by rewrite app_nil_r].
Qed.

(** The loop of [sort_desc] from an already sorted accumulator. *)
Lemma sort_desc_fold l acc :
  StronglySorted key_ge acc ->
  let r := fold_left (fun acc x => insert_desc x acc) l acc in
  StronglySorted key_ge r /\ r ≡ₚ acc ++ l /\ forall k, with_key k r = with_key k (acc ++ l).
Proof.
  revert acc. induction l as [|x l IH]; intros acc Hs; simpl.
  - by rewrite app_nil_r.
  - destruct (IH (insert_desc x acc)) as (H1 & H2 & H3); [by apply insert_desc_sorted|].
    split; [done|split].
    + rewrite H2, insert_desc_perm. simpl. by rewrite Permutation_middle.
    + intros k. rewrite H3, !with_key_app, insert_desc_with_key, with_key_app by done.
      by rewrite <- app_assoc, <- with_key_app.
Qed.

(** Sorted lists with the same classes of equal keys are equal. *)
Lemma sorted_with_key_unique o1 o2 :
  StronglySorted key_ge o1 -> StronglySorted key_ge o2 ->
  (forall k, with_key k o1 = with_key k o2) -> o1 = o2.
Proof.
  revert o2. induction o1 as [|a o1 IH]; intros [|b o2] S1 S2 F; [done|..].
  - specialize (F (key b)). rewrite with_key_cons, decide_True in F; done.
  - specialize (F (key a)). rewrite with_key_cons, decide_True in F; done.
  - assert (Hab : key a = key b).
    { apply (anti_symm String.le).
      - eapply (with_key_head_max _ _ _ a S2). rewrite <- F, with_key_cons, decide_True by done. apply elem_of_cons; by left.
      - eapply (with_key_head_max _ _ _ b S1). rewrite F, with_key_cons, decide_True by done. apply elem_of_cons; by left. }
    pose proof (F (key a)) as Fa. rewrite !with_key_cons, !decide_True in Fa by done.
    injection Fa as <- Fa. f_equal.
    apply StronglySorted_inv in S1 as [S1 _], S2 as [S2 _].
    apply IH; [done|done|]. intros k. destruct (decide (key a = k)) as [<-|Hk]; [done|].
    specialize (F k). by rewrite !with_key_cons, !decide_False in F.
Qed.

Lemma sort_desc_perm_length l : length (sort_desc l) = length l.
Proof. destruct (sort_desc_fold l [] (SSorted_nil _)) as (_ & H & _). by rewrite H. Qed.

(** ** Theorems *)

(** [sort_desc] meets the contract of the library sort. *)
Lemma sort_desc_correct (l : list A) : stable_sort_spec l (sort_desc l).
Proof.
  destruct (sort_desc_fold l [] (SSorted_nil _)) as (H1 & H2 & H3).
  split; [by apply StronglySorted_Sorted|]. split; [exact H2|exact H3].
Qed.


(** C4: the contract determines the result: a list meets
    [stable_sort_spec l] exactly when it is [sort_desc l]. *)
Theorem stable_sort_spec_iff (l out : list A) : stable_sort_spec l out <-> out = sort_desc l.
Proof.
  split; [|intros ->; apply sort_desc_correct].
  intros (Hs & _ & Hk). destruct (sort_desc_correct l) as (Hs' & _ & Hk').
  apply sorted_with_key_unique; [by eapply Sorted_StronglySorted; [apply key_ge_trans|]..|].
  intros k. by rewrite Hk, Hk'.
Qed.
End SortDesc.
