(* ===== verification/Slug.v ===== *)
(** * The slug deriver: [BlogGenerator.generate_slug]

    Source: src/outputs/06-markdown-blog-generator/blog_generator.py, lines
    47-51:
<<
        slug = re.sub(r'[^\w\s-]', '', title.lower())
        slug = re.sub(r'[-\s]+', '-', slug)
        return slug.strip('-')
>>
    Each of the three lines is one definition below.  The theorems show
    that every slug is well formed ([is_slug]: lower-case word characters
    and single inner hyphens, no hyphen at either end), that well-formed
    strings are fixpoints, hence that slug derivation is idempotent, and
    they check the examples of the spec. *)

From S2P Require Import Prelude.
From S2P Require Import PyStr.

Module Slug.
Local Open Scope string_scope.

(** ** The code *)

(** The characters kept by [re.sub(r'[^\w\s-]', '', ...)]. *)
Definition keep_char (c : ascii) : bool :=
  is_word c || is_space c || Ascii.eqb c "-".

(** Line 49 after the lower-casing: drop every other character. *)
Definition remove_special (s : string) : string := str_filter keep_char s.

(** The class [[-\s]]. *)
Definition is_sep (c : ascii) : bool := Ascii.eqb c "-" || is_space c.

(** [re.sub(r'[-\s]+', '-', s)]: a left-to-right scan that replaces each
    maximal run of separators by one hyphen; [in_run] says that the
    previous character belonged to a run already replaced. *)
Fixpoint collapse_go (in_run : bool) (s : string) : string :=
  match s with
  | EmptyString => EmptyString
  | String c s' =>
      if is_sep c then
        if in_run then collapse_go true s' else String "-" (collapse_go true s')
      else String c (collapse_go false s')
  end.

Definition collapse_seps (s : string) : string := collapse_go false s.

(** [generate_slug(title)]. *)
Definition generate_slug (title : string) : string :=
  let slug := remove_special (py_lower title) in
  let slug := collapse_seps slug in
  strip_chars ["-"%char] slug.

(** ** Well-formed slugs *)

Definition slug_char (c : ascii) : bool :=
  (is_word c && Ascii.eqb (lower_char c) c) || Ascii.eqb c "-".

Fixpoint no_double_dash (s : string) : bool :=
  match s with
  | String c ((String d _) as s') =>
      negb (Ascii.eqb c "-" && Ascii.eqb d "-") && no_double_dash s'
  | _ => true
  end.

Definition not_dash (o : option ascii) : bool :=
  match o with Some c => negb (Ascii.eqb c "-") | None => true end.

Definition is_slug (s : string) : bool :=
  str_forallb slug_char s && no_double_dash s
  && not_dash (str_head s) && not_dash (str_last s).

(** ** Lemmas on characters *)

Lemma slug_char_not_space c : implb (slug_char c) (negb (is_space c)) = true.
Proof. revert c. by_all_chars. Qed.

Lemma slug_char_keep c : implb (slug_char c) (keep_char c && Ascii.eqb (lower_char c) c) = true.
Proof. revert c. by_all_chars. Qed.

Lemma nonsep_slug_char c :
  implb (Ascii.eqb (lower_char c) c && keep_char c && negb (is_sep c)) (slug_char c) = true.
Proof. revert c. by_all_chars. Qed.

Lemma strip_dash_false c : bool_decide (c ∈ ["-"%char]) = false <-> c <> "-"%char.
Proof. rewrite bool_decide_eq_false. set_solver. Qed.

Lemma not_dash_strip o :
  match o with Some c => bool_decide (c ∈ ["-"%char]) = false | None => True end <->
  not_dash o = true.
Proof.
  destruct o as [c|]; simpl; [|done]. rewrite strip_dash_false, negb_true_iff, Ascii.eqb_neq.
  done.
Qed.

(** ** Each stage of [generate_slug] *)

Lemma lower_fixed s :
  str_forallb (fun c => Ascii.eqb (lower_char c) c) (py_lower s) = true.
Proof.
  unfold py_lower. rewrite str_forallb_map.
  induction s as [|c s IH]; simpl; [done|]. rewrite lower_char_idem, Ascii.eqb_refl. done.
Qed.

Lemma collapse_go_chars (P Q : ascii -> bool) b s :
  (forall c, P c = true -> is_sep c = false -> Q c = true) -> Q "-"%char = true ->
  str_forallb P s = true -> str_forallb Q (collapse_go b s) = true.
Proof.
  intros HPQ Hd. revert b. induction s as [|c s IH]; intros b; simpl; [done|].
  intros H; bool_split. destruct (is_sep c) eqn:E; [destruct b|]; simpl; bool_split; auto.
Qed.

Lemma no_double_dash_cons2 c d r :
  no_double_dash (String c (String d r)) =
  negb (Ascii.eqb c "-" && Ascii.eqb d "-") && no_double_dash (String d r).
Proof. reflexivity. Qed.

Lemma collapse_go_no_double_dash b s :
  no_double_dash (collapse_go b s) = true /\
  (b = true -> not_dash (str_head (collapse_go b s)) = true).
Proof.
  revert b. induction s as [|c s IH]; intros b; simpl; [done|].
  destruct (is_sep c) eqn:E; [destruct b|].
  - by apply IH.
  - split; [|done]. destruct (IH true) as [H1 H2].
    destruct (collapse_go true s) as [|d r] eqn:Er; [done|].
    simpl in H2. rewrite no_double_dash_cons2.
    specialize (H2 eq_refl). apply negb_true_iff in H2. by rewrite H1, H2, andb_false_r.
  - destruct (IH false) as [H1 _]. split.
    + destruct (collapse_go false s) as [|d r]; [done|].
      rewrite no_double_dash_cons2.
      rewrite H1. unfold is_sep in E. apply orb_false_elim in E as [-> _]. done.
    + intros _. simpl. unfold is_sep in E. apply orb_false_elim in E as [-> _]. done.
Qed.

Lemma no_double_dash_tail c s : no_double_dash (String c s) = true -> no_double_dash s = true.
Proof. destruct s as [|d s]; simpl; [done|]. intros H; bool_split. done. Qed.

Lemma no_double_dash_lstrip p s : no_double_dash s = true -> no_double_dash (lstrip_by p s) = true.
Proof.
  induction s as [|c s IH]; simpl; [done|]. intros H.
  destruct (p c); [apply IH; by eapply no_double_dash_tail|done].
Qed.

Lemma no_double_dash_rstrip p s : no_double_dash s = true -> no_double_dash (rstrip_by p s) = true.
Proof.
  induction s as [|c s IH]; intros H; [done|].
  pose proof (IH (no_double_dash_tail _ _ H)) as IH'. cbn [rstrip_by].
  destruct (rstrip_by p s) as [|d r] eqn:E.
  - destruct (p c); done.
  - destruct (rstrip_by_head p s) as [Hh|Hh]; rewrite E in Hh; [done|].
    destruct s as [|e s]; [done|]. simpl in Hh. injection Hh as ->.
    rewrite no_double_dash_cons2 in H |- *. bool_split; assumption.
Qed.

Lemma no_double_dash_strip p s : no_double_dash s = true -> no_double_dash (strip_by p s) = true.
Proof. intros H. by apply no_double_dash_rstrip, no_double_dash_lstrip. Qed.

(** A well-formed string goes through [collapse_go] unchanged. *)
Lemma collapse_go_id b s :
  str_forallb (fun c => negb (is_space c)) s = true -> no_double_dash s = true ->
  (b = true -> not_dash (str_head s) = true) -> collapse_go b s = s.
Proof.
  revert b. induction s as [|c s IH]; intros b Hsp Hdd Hb; simpl; [done|].
  apply str_forallb_cons_inv in Hsp as [Hc Hsp].
  destruct (is_sep c) eqn:E.
  - assert (c = "-"%char) as ->.
    { unfold is_sep in E. apply negb_true_iff in Hc. rewrite Hc, orb_false_r in E.
      by apply Ascii.eqb_eq. }
    destruct b; [specialize (Hb eq_refl); done|].
    f_equal. apply IH; [done|by eapply no_double_dash_tail|]. intros _.
    destruct s as [|d s]; [done|]. simpl in Hdd |- *. bool_split. done.
  - f_equal. apply IH; [done|by eapply no_double_dash_tail|done].
Qed.

(** ** Theorems *)

(** [generate_slug] returns a slug. *)
Lemma generate_slug_wf (title : string) : is_slug (generate_slug title) = true.
Proof.
  unfold generate_slug, is_slug, strip_chars.
  set (s := collapse_seps (remove_special (py_lower title))).
  assert (Hc : str_forallb slug_char s = true).
  { apply (collapse_go_chars (fun c => Ascii.eqb (lower_char c) c && keep_char c)).
    - intros c Hc Hs. apply implb_true_iff with (1 := nonsep_slug_char c). by rewrite Hc, Hs.
    - done.
    - rewrite str_forallb_andb. unfold remove_special.
      rewrite str_forallb_filter, str_forallb_filter_keep by apply lower_fixed. done. }
  assert (Hd : no_double_dash s = true) by apply collapse_go_no_double_dash.
  destruct (strip_by_ends (fun c => bool_decide (c ∈ ["-"%char])) s) as [Hh Hl].
  apply not_dash_strip in Hh, Hl.
  by rewrite (str_forallb_strip _ _ _ Hc), (no_double_dash_strip _ _ Hd), Hh, Hl.
Qed.

(** C10: every derived slug is well formed: each character is a lower-case
    word character ([\w] and fixed by [str.lower]) or a hyphen, no two
    hyphens are adjacent, and the slug neither starts nor ends with one. *)
Theorem generate_slug_is_slug (title : string) : is_slug (generate_slug title) = true.
Proof. exact (generate_slug_wf title). Qed.

(** A slug is its own slug. *)
Lemma slug_fixed (s : string) : is_slug s = true -> generate_slug s = s.
Proof.
  unfold is_slug. intros H; bool_split.
  assert (Hk : str_forallb (fun c => keep_char c && Ascii.eqb (lower_char c) c) s = true).
  { eapply str_forallb_impl; [|exact H]. intros c. apply implb_true_iff, slug_char_keep. }
  rewrite str_forallb_andb in Hk. bool_split.
  unfold generate_slug, py_lower, remove_special, collapse_seps, strip_chars.
  rewrite str_map_id, str_filter_id by done.
  rewrite collapse_go_id; [|eapply str_forallb_impl; [|exact H]..|done|done].
  - apply strip_by_id; by apply not_dash_strip.
  - intros c. apply implb_true_iff, slug_char_not_space.
Qed.

(** C11: a well-formed slug is left unchanged by [generate_slug]. *)
Theorem generate_slug_fixpoint (s : string) : is_slug s = true -> generate_slug s = s.
Proof. exact (slug_fixed s). Qed.

(** Deriving a slug from a slug gives the same slug (spec, section 8). *)
Corollary generate_slug_idempotent (title : string) :
  generate_slug (generate_slug title) = generate_slug title.
Proof. apply slug_fixed, generate_slug_wf. Qed.

(** A witness of [generate_slug_fixpoint]: "hello-world" is a slug. *)
Lemma generate_slug_fixpoint_witness :
  is_slug "hello-world" = true /\ generate_slug "hello-world" = "hello-world".
Proof. split; [reflexivity|]. apply generate_slug_fixpoint. reflexivity. Defined.

(** The slug examples of the spec, section 8. *)
Example generate_slug_spec_examples :
  generate_slug "Hello, World!" = "hello-world" /\
  generate_slug "  Multiple   Spaces " = "multiple-spaces" /\
  generate_slug "" = "".
Proof. repeat split; reflexivity. Qed.

End Slug.
