(* ===== verification/Pipeline.v ===== *)
(** * Post assembly, the collection pipeline and the page writer

    Source: src/outputs/06-markdown-blog-generator/blog_generator.py: the
    class [BlogGenerator] (lines 10-14), [process_posts] (53-100),
    [generate_post_pages] (102-154, the writing loop), [generate_index_page]
    (156-205, the writing step), [generate_css] (207-383, the writing
    step) and [generate_blog] (385-411).

    The object and the world it acts on are a [World]: the generator's
    fields and the trace of effects (lines printed, directories made, files
    written).  Methods are [PyM World] computations.  The two external
    libraries are interfaces: [Markdown] (the [markdown] package; [Err] is
    an exception it raises) and [Templates] (the two Jinja templates), and
    the outside file system enters as the listing of the source directory
    and a [Storage] instance that says which writes fail.

    The theorems give the collection [process_posts] builds (the stable
    date-descending sort of exactly the documents that assemble), its error
    reports, and what [generate_blog] writes. *)

From S2P Require Import Prelude.
From S2P Require Import PyStr.
From S2P Require Import Sorting.
From S2P Require Import Slug.
From S2P Require Import Frontmatter.

Module Pipeline.
Import Slug.Slug Frontmatter.Frontmatter.
Local Open Scope string_scope.
Local Open Scope list_scope.

(** ** Data *)

(** The post dict built at lines 83-91. *)
Record Post : Type := mkPost {
  title : string;
  date : string;
  author : string;
  tags : list string;
  slug : string;
  content : string;
  filename : string
}.

(** One entry of the source directory: its name and what
    [open(md_file, 'r', encoding='utf-8').read()] gives ([Err]: a
    directory, undecodable bytes, no permission). *)
Record DirEntry : Type := mkDirEntry {
  entry_name : string;
  entry_text : result string
}.

(** ** The external collaborators *)

(** [markdown.markdown(text, extensions=['codehilite', 'fenced_code',
    'tables'])]. *)
Class Markdown : Type := {
  markdown_convert : string -> result string
}.

(** The bytes of the post page (template of lines 103-144) and of the
    index page (lines 158-199): the writer's view of the renderer, which
    [Templates.jinja_templates] implements. *)
Class Templates : Type := {
  render_post : Post -> string;
  render_index : list Post -> string
}.

(** The file system on the output side: [write_error p] is the message of
    the [OSError] that writing the file [p] raises, if it does. *)
Class Storage : Type := {
  write_error : list string -> option string
}.

(** ** The generator and its world *)

(** [self.source_dir], [self.output_dir], [self.posts]. *)
Record BlogGenerator : Type := mkBlogGenerator {
  source_dir : string;
  output_dir : string;
  posts : list Post
}.

(** The lines printed by the generator. *)
Inductive Msg : Type :=
| MsgSourceMissing (dir : string)                 (* line 56 *)
| MsgNoMarkdown (dir : string)                    (* line 62 *)
| MsgFound (n : nat)                              (* line 65 *)
| MsgProcessed (title : string)                   (* line 94 *)
| MsgError (file : list string) (reason : string) (* line 97 *)
| MsgStarting                                     (* line 387 *)
| MsgNoPosts                                      (* line 396 *)
| MsgGeneratingPosts                              (* line 400 *)
| MsgGeneratingIndex                              (* line 403 *)
| MsgGeneratingCss                                (* line 406 *)
| MsgGenerated                                    (* line 409 *)
| MsgOutputDir (dir : string)                     (* line 410 *)
| MsgPostCount (n : nat).                         (* line 411 *)

(** Effects on the outside world, paths as lists of components. *)
Inductive Effect : Type :=
| Print (m : Msg)
| Mkdir (path : list string)
| WriteFile (path : list string) (data : string).

Record World : Type := mkWorld {
  gen : BlogGenerator;
  trace : list Effect
}.

(** [BlogGenerator(source_dir, output_dir)], before anything happened. *)
Definition init_world (source output : string) : World :=
  mkWorld (mkBlogGenerator source output []) [].

Definition with_posts (ps : list Post) (w : World) : World :=
  mkWorld (mkBlogGenerator (source_dir (gen w)) (output_dir (gen w)) ps) (trace w).

Definition with_effect (e : Effect) (w : World) : World :=
  mkWorld (gen w) (trace w ++ [e]).

Definition emit (e : Effect) : PyM World unit := py_modify (with_effect e).
Definition print (m : Msg) : PyM World unit := emit (Print m).

(** [open(path, 'w').write(data)]: raises when the storage refuses. *)
Definition write_file `{Storage} (path : list string) (data : string) : PyM World unit :=
  match write_error path with
  | Some e => py_raise e
  | None => emit (WriteFile path data)
  end.

(** ** Post assembly (lines 69-91) *)

(** [metadata[k]] for a string field and for [tags].  The fallbacks are
    never taken: see [meta_str_lookup]. *)
Definition meta_str (md : gmap string MetaValue) (k : string) : string :=
  match md !! k with Some (MStr s) => s | _ => "" end.
Definition meta_list (md : gmap string MetaValue) (k : string) : list string :=
  match md !! k with Some (MList l) => l | _ => [] end.

(** The body of the [try] block up to the post dict: read, parse, convert,
    derive the slug. *)
Definition process_file `{Markdown} (today : string) (md_file : DirEntry) : result Post :=
  (let* text := entry_text md_file in
   let '(metadata, markdown_content) := parse_post_metadata today text in
   let* html_content := markdown_convert markdown_content in
   let slug := generate_slug (meta_str metadata "title") in
   Ok (mkPost (meta_str metadata "title") (meta_str metadata "date")
         (meta_str metadata "author") (meta_list metadata "tags")
         slug html_content (path_stem (entry_name md_file))))%py.

(** ** The collection pipeline: [process_posts] *)

(** [self.source_dir.glob('*.md')] over the directory listing. *)
Definition md_glob (entries : list DirEntry) : list DirEntry :=
  filter (fun e => ends_with (entry_name e) ".md" = true) entries.

(** Lines 68-97 for one file: append and report, or report the error. *)
Definition process_one `{Markdown} (today : string) (md_file : DirEntry) : PyM World unit :=
  g ← py_gets gen;
  py_try
    (post ← py_lift (process_file today md_file);
     py_modify (fun w => with_posts (posts (gen w) ++ [post]) w);;
     print (MsgProcessed (title post)))
    (fun e => print (MsgError [source_dir g; entry_name md_file] e)).

(** Line 100: [self.posts.sort(key=lambda x: x['date'], reverse=True)]. *)
Definition sort_posts (ps : list Post) : list Post := sort_desc date ps.

(** [process_posts()]; [listing] is [None] when the source directory does
    not exist, and otherwise its entries in [glob]'s order. *)
Definition process_posts `{Markdown} (today : string) (listing : option (list DirEntry)) :
    PyM World unit :=
  g ← py_gets gen;
  match listing with
  | None => print (MsgSourceMissing (source_dir g))
  | Some entries =>
      let markdown_files := md_glob entries in
      match markdown_files with
      | [] => print (MsgNoMarkdown (source_dir g))
      | _ :: _ =>
          print (MsgFound (length markdown_files));;
          py_for markdown_files (process_one today);;
          py_modify (fun w => with_posts (sort_posts (posts (gen w))) w)
      end
  end.

(** ** What a run shows *)

(** The documents [process_posts] tries to assemble. *)
Definition discovered (listing : option (list DirEntry)) : list DirEntry :=
  match listing with Some entries => md_glob entries | None => [] end.

(** The posts assembled from [files], in order, and the files that fail. *)
Fixpoint assembled `{Markdown} (today : string) (files : list DirEntry) : list Post :=
  match files with
  | [] => []
  | f :: fs =>
      match process_file today f with
      | Ok p => p :: assembled today fs
      | Err _ => assembled today fs
      end
  end.

Fixpoint failed `{Markdown} (today : string) (files : list DirEntry) : list DirEntry :=
  match files with
  | [] => []
  | f :: fs =>
      match process_file today f with
      | Ok _ => failed today fs
      | Err _ => f :: failed today fs
      end
  end.

(** The files named by the error lines of a trace. *)
Fixpoint error_reports (tr : list Effect) : list (list string) :=
  match tr with
  | [] => []
  | Print (MsgError file _) :: tr' => file :: error_reports tr'
  | _ :: tr' => error_reports tr'
  end.

(** ** Lemmas *)

Section Lemmas.
Context `{Markdown}.

(** One iteration of the loop, as a change of the world. *)
Definition process_step (today : string) (w : World) (md_file : DirEntry) : World :=
  match process_file today md_file with
  | Ok post => with_effect (Print (MsgProcessed (title post))) (with_posts (posts (gen w) ++ [post]) w)
  | Err e => with_effect (Print (MsgError [source_dir (gen w); entry_name md_file] e)) w
  end.

Lemma process_one_run today md_file w :
  process_one today md_file w = (process_step today w md_file, Ok tt).
Proof. unfold process_one, process_step. simpl. by destruct (process_file today md_file). Qed.

Lemma error_reports_app tr1 tr2 : error_reports (tr1 ++ tr2) = error_reports tr1 ++ error_reports tr2.
Proof. induction tr1 as [|[[]| |] tr1 IH]; simpl; by rewrite ?IH. Qed.

Lemma process_loop today files w :
  let w' := fold_left (process_step today) files w in
  source_dir (gen w') = source_dir (gen w) /\ output_dir (gen w') = output_dir (gen w) /\
  posts (gen w') = posts (gen w) ++ assembled today files /\
  error_reports (trace w') =
    error_reports (trace w) ++ map (fun f => [source_dir (gen w); entry_name f]) (failed today files).
Proof.
  revert w. induction files as [|f files IH]; intros w; simpl.
  - by rewrite !app_nil_r.
  - destruct (IH (process_step today w f)) as (H1 & H2 & H3 & H4).
    unfold process_step in *.
    destruct (process_file today f) as [p|e]; simpl in *;
      rewrite H1, H2, H3, H4, ?error_reports_app; simpl; rewrite <- ?app_assoc; done.
Qed.

Lemma assembled_failed_length today files :
  length (assembled today files) + length (failed today files) = length files.
Proof.
  induction files as [|f files IH]; [done|]. simpl.
  destruct (process_file today f); simpl; lia.
Qed.

Lemma process_posts_run today listing w :
  process_posts today listing w =
  (match discovered listing with
   | [] => with_effect (Print (match listing with
                               | None => MsgSourceMissing (source_dir (gen w))
                               | Some _ => MsgNoMarkdown (source_dir (gen w)) end)) w
   | files =>
       let w' := fold_left (process_step today)
                   files (with_effect (Print (MsgFound (length files))) w) in
       with_posts (sort_posts (posts (gen w'))) w'
   end, Ok tt).
Proof.
  unfold process_posts, discovered.
  destruct listing as [entries|]; [|done]. destruct (md_glob entries) as [|f fs]; [done|].
  rewrite bind_run. cbn [py_gets]. rewrite bind_run. cbn [print emit py_modify].
  rewrite bind_run, (py_for_total _ _ (process_step today)); [done|].
  intros x s' _. apply process_one_run.
Qed.
End Lemmas.

(** ** Theorems on [process_posts] *)

(** The collection [process_posts] leaves in [self.posts]. *)
Lemma process_posts_result `{Markdown} (today : string) (listing : option (list DirEntry)) (w : World) :
  posts (gen (process_posts today listing w).1) =
  match discovered listing with
  | [] => posts (gen w)
  | files => sort_posts (posts (gen w) ++ assembled today files)
  end.
Proof.
  rewrite process_posts_run. destruct (discovered listing) as [|f fs] eqn:E; [done|].
  simpl. destruct (process_loop today (f :: fs) (with_effect (Print (MsgFound (length (f :: fs)))) w))
    as (_ & _ & Hp & _).
  simpl in Hp. by rewrite Hp.
Qed.

(** C2: the collection [process_posts] leaves in [self.posts]: unchanged
    when the directory is missing or holds no [*.md] file, and otherwise
    the stable date-descending sort of the old posts followed by the
    documents that assemble, in discovery order (spec, section 4.4). *)
Theorem process_posts_posts `{Markdown} (today : string) (listing : option (list DirEntry)) (w : World) :
  posts (gen (process_posts today listing w).1) =
  match discovered listing with
  | [] => posts (gen w)
  | files => sort_posts (posts (gen w) ++ assembled today files)
  end.
Proof. exact (process_posts_result today listing w). Qed.

(** C3: [process_posts] never raises; it reports every document that
    fails, once and in discovery order, and keeps every other one: the
    posts gained and the errors reported add up to the documents found
    (spec, sections 4.3, 4.4 and 7). *)
Theorem process_posts_reports `{Markdown} (today : string) (listing : option (list DirEntry)) (w : World) :
  let r := process_posts today listing w in
  r.2 = Ok tt /\
  error_reports (trace r.1) =
    error_reports (trace w) ++
    map (fun f => [source_dir (gen w); entry_name f]) (failed today (discovered listing)) /\
  length (posts (gen r.1)) + length (failed today (discovered listing)) =
    length (posts (gen w)) + length (discovered listing).
Proof.
  pose proof (process_posts_result today listing w) as Hposts.
  rewrite process_posts_run in Hposts |- *. cbv zeta. cbn [fst snd] in *. split; [done|].
  destruct (discovered listing) as [|f fs] eqn:E.
  - simpl. rewrite error_reports_app, !app_nil_r. destruct listing; simpl; by rewrite ?app_nil_r.
  - destruct (process_loop today (f :: fs) (with_effect (Print (MsgFound (length (f :: fs)))) w))
      as (H1 & _ & H3 & H4).
    split.
    + cbn [trace with_posts]. rewrite H4. simpl. by rewrite error_reports_app, app_nil_r.
    + rewrite Hposts. unfold sort_posts. rewrite (sort_desc_perm_length date), length_app.
      rewrite <- Nat.add_assoc, assembled_failed_length. done.
Qed.

(** C1: refinement of the contract of spec section 4.4: from a fresh
    generator, [self.posts] is sorted by date, newest first, holds exactly
    the documents that assemble, and keeps documents of equal date in
    discovery order ([stable_sort_spec]; by [stable_sort_spec_iff] it is
    the only such list). *)
Theorem process_posts_collection_spec `{Markdown} (today source output : string)
    (listing : option (list DirEntry)) :
  stable_sort_spec date (assembled today (discovered listing))
    (posts (gen (process_posts today listing (init_world source output)).1)).
Proof.
  rewrite process_posts_result. simpl.
  destruct (discovered listing); [apply (sort_desc_correct date [])|apply sort_desc_correct].
Qed.

(** ** Examples of spec section 8 *)

(** A document with a title and a date. *)
Definition dated_doc (name title date : string) : DirEntry :=
  mkDirEntry name (Ok (join_lines ["---"; "title: " +:+ title; "date: " +:+ date; "---";
                                   "Body of " +:+ title])).

(** A converter that returns its input, and one that raises on one body. *)
Definition markdown_verbatim : Markdown := {| markdown_convert := fun s => Ok s |}.
Definition markdown_failing_on (bad : string) : Markdown :=
  {| markdown_convert := fun s => if String.eqb s bad then Err "conversion failed" else Ok s |}.

(** The dates [2024-01-01], [2024-03-01], [2023-12-31] come out as
    [2024-03-01], [2024-01-01], [2023-12-31]. *)
Example process_posts_date_order :
  map date (posts (gen (@process_posts markdown_verbatim "2024-06-01"
    (Some [dated_doc "a.md" "A" "2024-01-01"; dated_doc "b.md" "B" "2024-03-01";
           dated_doc "c.md" "C" "2023-12-31"]) (init_world "posts" "output")).1)) =
  ["2024-03-01"; "2024-01-01"; "2023-12-31"].
Proof. vm_compute. reflexivity. Qed.

(** Of three documents, one of which the converter rejects, two posts
    remain and exactly one failure is reported, naming that document. *)
Example process_posts_one_failure :
  let w := (@process_posts (markdown_failing_on "Body of B") "2024-06-01"
    (Some [dated_doc "a.md" "A" "2024-01-01"; dated_doc "b.md" "B" "2024-03-01";
           dated_doc "c.md" "C" "2023-12-31"]) (init_world "posts" "output")).1 in
  map title (posts (gen w)) = ["A"; "C"] /\ error_reports (trace w) = [["posts"; "b.md"]].
Proof. vm_compute. split; reflexivity. Qed.

(** Dates are ordered as strings, not as calendar dates:
    [2024-2-1] sorts before [2024-10-1] although February comes first
    (the behaviour spec section 9 asks to keep). *)
Example process_posts_lexical_dates :
  map date (posts (gen (@process_posts markdown_verbatim "2024-06-01"
    (Some [dated_doc "a.md" "A" "2024-10-1"; dated_doc "b.md" "B" "2024-2-1"])
    (init_world "posts" "output")).1)) = ["2024-2-1"; "2024-10-1"].
Proof. vm_compute. reflexivity. Qed.

End Pipeline.
