(* ===== verification/Writer.v ===== *)
(** * The output writer: pages, stylesheet and [generate_blog]

    Source: src/outputs/06-markdown-blog-generator/blog_generator.py:
    [generate_post_pages] (lines 102-154), [generate_index_page] (156-205),
    [generate_css] (207-383), [generate_blog] (385-411) and [main]
    (413-421).  The Jinja templates are the [Templates] interface of
    Pipeline.v; the stylesheet is the literal of the source.  [main]'s
    argument parsing is not modelled: it receives the two directories.

    The theorems say what a run writes: nothing when no post assembles;
    otherwise one page per post at [posts/<slug>.html] in date order, then
    the index and the stylesheet; when two posts share a slug the page
    left on disk is the one of the post written last, the oldest; and the
    first write that fails ends the run. *)

From S2P Require Import Prelude.
From S2P Require Import PyStr.
From S2P Require Import Sorting.
From S2P Require Import Slug.
From S2P Require Import Pipeline.

Module Writer.
Import Pipeline.Pipeline.
Local Open Scope string_scope.
Local Open Scope list_scope.

(** The stylesheet literal of lines 209-379, character for character. *)
Definition css_content : string :=
"
* {
    margin: 0;
    padding: 0;
    box-sizing: border-box;
}

body {
    font-family: 'Georgia', serif;
    line-height: 1.6;
    color: #333;
    background-color: #f9f9f9;
}

header {
    background: #2c3e50;
    color: white;
    padding: 2rem 0;
    text-align: center;
}

header h1 {
    font-size: 2.5rem;
    margin-bottom: 0.5rem;
}

nav {
    padding: 1rem;
    background: #34495e;
}

nav a {
    color: white;
    text-decoration: none;
    font-weight: bold;
}

nav a:hover {
    text-decoration: underline;
}

main {
    max-width: 800px;
    margin: 2rem auto;
    padding: 0 2rem;
}

.posts-list {
    display: flex;
    flex-direction: column;
    gap: 2rem;
}

.post-preview {
    background: white;
    padding: 2rem;
    border-radius: 8px;
    box-shadow: 0 2px 10px rgba(0,0,0,0.1);
}

.post-preview h2 {
    margin-bottom: 1rem;
}

.post-preview h2 a {
    color: #2c3e50;
    text-decoration: none;
}

.post-preview h2 a:hover {
    color: #3498db;
}

.post-meta {
    display: flex;
    gap: 1rem;
    margin-bottom: 1rem;
    font-size: 0.9rem;
    color: #666;
    flex-wrap: wrap;
}

.tags {
    display: flex;
    gap: 0.5rem;
}

.tag {
    background: #3498db;
    color: white;
    padding: 0.2rem 0.5rem;
    border-radius: 3px;
    font-size: 0.8rem;
}

.post-excerpt {
    margin-bottom: 1rem;
    color: #555;
}

.read-more {
    color: #3498db;
    text-decoration: none;
    font-weight: bold;
}

.read-more:hover {
    text-decoration: underline;
}

.post-content {
    background: white;
    padding: 2rem;
    border-radius: 8px;
    box-shadow: 0 2px 10px rgba(0,0,0,0.1);
}

.post-header {
    border-bottom: 1px solid #eee;
    padding-bottom: 1rem;
    margin-bottom: 2rem;
}

.post-header h1 {
    color: #2c3e50;
    margin-bottom: 1rem;
}

.post-body {
    font-size: 1.1rem;
}

.post-body h1, .post-body h2, .post-body h3 {
    margin: 2rem 0 1rem 0;
    color: #2c3e50;
}

.post-body p {
    margin-bottom: 1rem;
}

.post-body code {
    background: #f4f4f4;
    padding: 0.2rem 0.4rem;
    border-radius: 3px;
    font-family: 'Courier New', monospace;
}

.post-body pre {
    background: #f4f4f4;
    padding: 1rem;
    border-radius: 5px;
    overflow-x: auto;
    margin: 1rem 0;
}

@media (max-width: 768px) {
    main {
        padding: 0 1rem;
    }
    
    .post-preview, .post-content {
        padding: 1rem;
    }
    
    .post-meta {
        flex-direction: column;
        gap: 0.5rem;
    }
}
        ".

(** ** The methods *)

(** [generate_post_pages()]: [posts_dir.mkdir(...)], then one file per
    post, in the order of [self.posts]. *)
Definition generate_post_pages `{Templates} `{Storage} : PyM World unit :=
  g ← py_gets gen;
  let posts_dir := [output_dir g; "posts"] in
  emit (Mkdir posts_dir);;
  py_for (posts g) (fun post =>
    write_file (posts_dir ++ [slug post +:+ ".html"]) (render_post post)).

(** [generate_index_page()]. *)
Definition generate_index_page `{Templates} `{Storage} : PyM World unit :=
  g ← py_gets gen;
  write_file [output_dir g; "index.html"] (render_index (posts g)).

(** [generate_css()]. *)
Definition generate_css `{Storage} : PyM World unit :=
  g ← py_gets gen;
  write_file [output_dir g; "styles.css"] css_content.

(** [generate_blog()]. *)
Definition generate_blog `{Markdown} `{Templates} `{Storage}
    (today : string) (listing : option (list DirEntry)) : PyM World unit :=
  print MsgStarting;;
  g ← py_gets gen;
  emit (Mkdir [output_dir g]);;
  process_posts today listing;;
  g ← py_gets gen;
  match posts g with
  | [] => print MsgNoPosts
  | _ :: _ =>
      print MsgGeneratingPosts;;
      generate_post_pages;;
      print MsgGeneratingIndex;;
      generate_index_page;;
      print MsgGeneratingCss;;
      generate_css;;
      print MsgGenerated;;
      print (MsgOutputDir (output_dir g));;
      print (MsgPostCount (length (posts g)))
  end.

(** [main()] with the parsed [--source] and [--output]. *)
Definition main `{Markdown} `{Templates} `{Storage}
    (source output today : string) (listing : option (list DirEntry)) : World * result unit :=
  generate_blog today listing (init_world source output).

(** ** What a run leaves behind *)

(** The files written, in order. *)
Fixpoint writes (tr : list Effect) : list (list string * string) :=
  match tr with
  | [] => []
  | WriteFile p d :: tr' => (p, d) :: writes tr'
  | _ :: tr' => writes tr'
  end.

(** The content of every file at the end: the last write wins. *)
Definition files_of (tr : list Effect) : gmap (list string) string :=
  fold_left (fun m pd => <[pd.1 := pd.2]> m) (writes tr) ∅.

(** The page of a post. *)
Definition page_path (out : string) (p : Post) : list string := [out; "posts"; slug p +:+ ".html"].

(** ** Lemmas *)

Lemma writes_app tr1 tr2 : writes (tr1 ++ tr2) = writes tr1 ++ writes tr2.
Proof. induction tr1 as [|[] tr1 IH]; simpl; by rewrite ?IH. Qed.

Lemma fold_with_effect {A} (f : A -> Effect) xs w :
  fold_left (fun w x => with_effect (f x) w) xs w = mkWorld (gen w) (trace w ++ map f xs).
Proof.
  revert w. induction xs as [|x xs IH]; intros w; simpl.
  - destruct w. by rewrite app_nil_r.
  - rewrite IH. simpl. by rewrite <- app_assoc.
Qed.

Section Runs.
Context `{Markdown} `{Templates} `{Storage}.

Lemma process_step_writes today w f :
  writes (trace (process_step today w f)) = writes (trace w).
Proof.
  unfold process_step. destruct (process_file today f); simpl;
    by rewrite writes_app, app_nil_r.
Qed.

(** [process_posts] never raises, writes nothing and keeps
    [output_dir]. *)
Lemma process_posts_facts today listing w :
  let r := process_posts today listing w in
  r.2 = Ok tt /\ output_dir (gen r.1) = output_dir (gen w) /\
  writes (trace r.1) = writes (trace w).
Proof.
  rewrite process_posts_run. cbv zeta. cbn [fst snd]. split; [done|].
  destruct (discovered listing) as [|f fs].
  - simpl. rewrite writes_app, app_nil_r. by destruct listing.
  - set (w0 := with_effect (Print (MsgFound (length (f :: fs)))) w).
    destruct (process_loop today (f :: fs) w0) as (_ & Ho & _ & _).
    assert (Hw : writes (trace (fold_left (process_step today) (f :: fs) w0)) = writes (trace w0)).
    { apply (fold_left_invariant _ (fun w' => writes (trace w') = writes (trace w0))); [done|].
      intros w' x Hw' _. by rewrite process_step_writes. }
    cbn [with_posts gen trace output_dir]. rewrite Ho, Hw. subst w0. simpl. by rewrite writes_app, app_nil_r.
Qed.

(** From a fresh generator, [self.posts] ends as the sorted collection. *)
Lemma process_posts_fresh today listing w :
  posts (gen w) = [] ->
  posts (gen (process_posts today listing w).1) = sort_posts (assembled today (discovered listing)).
Proof.
  intros Hw. rewrite process_posts_result, Hw. by destruct (discovered listing).
Qed.

Lemma page_loop_ok out ps w :
  (forall p, p ∈ ps -> write_error (page_path out p) = None) ->
  py_for ps (fun post => write_file ([out; "posts"] ++ [slug post +:+ ".html"]) (render_post post)) w =
  (mkWorld (gen w) (trace w ++ map (fun p => WriteFile (page_path out p) (render_post p)) ps), Ok tt).
Proof.
  unfold page_path. intros Hok.
  rewrite (py_for_total _ _ (fun w p => with_effect (WriteFile [out; "posts"; slug p +:+ ".html"] (render_post p)) w)).
  - by rewrite fold_with_effect.
  - intros p w' Hp. unfold write_file. simpl. by rewrite (Hok p Hp).
Qed.

Lemma write_file_ok path data w :
  write_error path = None -> write_file path data w = (with_effect (WriteFile path data) w, Ok tt).
Proof. intros He. unfold write_file. by rewrite He. Qed.

Lemma write_file_err path data w e :
  write_error path = Some e -> write_file path data w = (w, Err e).
Proof. intros He. unfold write_file. by rewrite He. Qed.

Lemma page_loop_fail out pre p post e w :
  (forall q, q ∈ pre -> write_error (page_path out q) = None) ->
  write_error (page_path out p) = Some e ->
  py_for (pre ++ p :: post) (fun post => write_file ([out; "posts"] ++ [slug post +:+ ".html"]) (render_post post)) w =
  (mkWorld (gen w) (trace w ++ map (fun q => WriteFile (page_path out q) (render_post q)) pre), Err e).
Proof.
  unfold page_path. intros Hok He. revert w. induction pre as [|q pre IH]; intros w.
  - simpl. rewrite bind_run, (write_file_err _ _ _ e) by done. destruct w. by rewrite app_nil_r.
  - simpl. rewrite bind_run, write_file_ok by (apply (Hok q); left).
    rewrite IH by (intros r Hr; apply Hok; by right). simpl. by rewrite <- app_assoc.
Qed.

Lemma print_run m w : print m w = (with_effect (Print m) w, Ok tt).
Proof. reflexivity. Qed.

Lemma generate_index_page_ok w :
  write_error [output_dir (gen w); "index.html"] = None ->
  generate_index_page w =
  (with_effect (WriteFile [output_dir (gen w); "index.html"] (render_index (posts (gen w)))) w, Ok tt).
Proof. intros He. unfold generate_index_page. py_seq reflexivity. by apply write_file_ok. Qed.

Lemma generate_css_ok w :
  write_error [output_dir (gen w); "styles.css"] = None ->
  generate_css w = (with_effect (WriteFile [output_dir (gen w); "styles.css"] css_content) w, Ok tt).
Proof. intros He. unfold generate_css. py_seq reflexivity. by apply write_file_ok. Qed.

Lemma generate_post_pages_ok w :
  (forall p, p ∈ posts (gen w) -> write_error (page_path (output_dir (gen w)) p) = None) ->
  generate_post_pages w =
  (mkWorld (gen w) (trace w ++ Mkdir [output_dir (gen w); "posts"] ::
     map (fun p => WriteFile (page_path (output_dir (gen w)) p) (render_post p)) (posts (gen w))), Ok tt).
Proof.
  intros Hok. unfold generate_post_pages. rewrite bind_run. cbn [py_gets].
  rewrite bind_run. cbn [emit py_modify]. rewrite page_loop_ok by done.
  simpl. by rewrite <- app_assoc.
Qed.

Lemma generate_post_pages_fail w pre p post e :
  posts (gen w) = pre ++ p :: post ->
  (forall q, q ∈ pre -> write_error (page_path (output_dir (gen w)) q) = None) ->
  write_error (page_path (output_dir (gen w)) p) = Some e ->
  generate_post_pages w =
  (mkWorld (gen w) (trace w ++ Mkdir [output_dir (gen w); "posts"] ::
     map (fun q => WriteFile (page_path (output_dir (gen w)) q) (render_post q)) pre), Err e).
Proof.
  intros Hps Hok He. unfold generate_post_pages. rewrite bind_run. cbn [py_gets].
  rewrite bind_run. cbn [emit py_modify]. rewrite Hps, (page_loop_fail _ _ _ _ e) by done.
  simpl. by rewrite <- app_assoc.
Qed.

(** The world when [generate_blog] reaches line 395. *)
Definition after_processing (source output today : string) (listing : option (list DirEntry)) : World :=
  (process_posts today listing
     (with_effect (Mkdir [output]) (with_effect (Print MsgStarting) (init_world source output)))).1.

Lemma after_processing_facts source output today listing :
  let w := after_processing source output today listing in
  posts (gen w) = sort_posts (assembled today (discovered listing)) /\
  output_dir (gen w) = output /\ writes (trace w) = [].
Proof.
  unfold after_processing.
  destruct (process_posts_facts today listing
    (with_effect (Mkdir [output]) (with_effect (Print MsgStarting) (init_world source output))))
    as (_ & Ho & Hw).
  split; [by apply process_posts_fresh|]. by rewrite Ho, Hw.
Qed.

Lemma main_run source output today listing :
  main source output today listing =
  let w := after_processing source output today listing in
  match posts (gen w) with
  | [] => (with_effect (Print MsgNoPosts) w, Ok tt)
  | _ :: _ =>
      (print MsgGeneratingPosts;; generate_post_pages;;
       print MsgGeneratingIndex;; generate_index_page;;
       print MsgGeneratingCss;; generate_css;;
       print MsgGenerated;; print (MsgOutputDir (output_dir (gen w)));;
       print (MsgPostCount (length (posts (gen w))))) w
  end.
Proof.
  unfold main, generate_blog, after_processing.
  rewrite bind_run. cbn [print emit py_modify]. rewrite bind_run. cbn [py_gets].
  rewrite bind_run. cbn [print emit py_modify gen init_world output_dir]. rewrite bind_run.
  destruct (process_posts_facts today listing
    (with_effect (Mkdir [output]) (with_effect (Print MsgStarting) (init_world source output))))
    as (Hr & _ & _).
  destruct (process_posts today listing _) as [w2 r2]. simpl in Hr. subst r2.
  rewrite bind_run. cbn [py_gets]. simpl. by destruct (posts (gen w2)).
Qed.
End Runs.

(** The content a sequence of writes leaves in the file [p]. *)
Fixpoint last_write (p : list string) (ws : list (list string * string)) : option string :=
  match ws with
  | [] => None
  | (q, d) :: ws' =>
      match last_write p ws' with
      | Some d' => Some d'
      | None => if decide (q = p) then Some d else None
      end
  end.

Lemma fold_insert_lookup (ws : list (list string * string)) (m : gmap (list string) string) (p : list string) :
  fold_left (fun m pd => <[pd.1 := pd.2]> m) ws m !! p =
  match last_write p ws with Some d => Some d | None => m !! p end.
Proof.
  revert m. induction ws as [|[q d] ws IH]; intros m; [done|].
  simpl. rewrite IH. destruct (last_write p ws); [done|].
  rewrite lookup_insert. by case_decide.
Qed.

Lemma files_of_lookup (tr : list Effect) (p : list string) : files_of tr !! p = last_write p (writes tr).
Proof. unfold files_of. rewrite fold_insert_lookup. by destruct (last_write p (writes tr)). Qed.

Lemma last_write_app (p : list string) (ws1 ws2 : list (list string * string)) :
  last_write p (ws1 ++ ws2) = match last_write p ws2 with Some d => Some d | None => last_write p ws1 end.
Proof.
  induction ws1 as [|[q d] ws1 IH]; simpl; [by destruct (last_write p ws2)|].
  rewrite IH. by destruct (last_write p ws2).
Qed.

(** Among the post pages, the file [posts/<s>.html] holds the page of the
    last post with slug [s]. *)
Lemma last_write_pages {T : Templates} out s ps :
  last_write [out; "posts"; s +:+ ".html"] (map (fun p => (page_path out p, render_post p)) ps) =
  render_post <$> last (filter (fun p => slug p = s) ps).
Proof.
  induction ps as [|p ps IH]; [done|]. simpl. rewrite IH, filter_cons.
  destruct (decide (slug p = s)) as [<-|Hne].
  - rewrite last_cons. destruct (last (filter _ ps)); [done|]. simpl. by rewrite decide_True.
  - destruct (last (filter _ ps)); [done|]. simpl. rewrite decide_False; [done|].
    unfold page_path. intros [= Heq]. by apply Hne, (str_app_inj_r _ _ ".html").
Qed.

Lemma writes_map {A} (f : A -> list string) (g : A -> string) xs :
  writes (map (fun x => WriteFile (f x) (g x)) xs) = map (fun x => (f x, g x)) xs.
Proof. induction xs as [|x xs IH]; simpl; by rewrite ?IH. Qed.

(** ** Theorems *)

Section Theorems.
Context `{Markdown} `{Templates} `{Storage}.

(** C13: when no document assembles (missing directory, no [*.md] file,
    or every one fails), the run writes no file at all and ends by
    printing that there are no posts (spec, sections 4.4 and 8). *)
Theorem generate_blog_empty_corpus (source output today : string) (listing : option (list DirEntry)) :
  assembled today (discovered listing) = [] ->
  let r := main source output today listing in
  r.2 = Ok tt /\ writes (trace r.1) = [] /\ last (trace r.1) = Some (Print MsgNoPosts).
Proof.
  intros Hnone. rewrite main_run. destruct (after_processing_facts source output today listing) as (Hp & _ & Hw).
  cbv zeta. rewrite Hp, Hnone. simpl. rewrite writes_app, Hw.
  split; [done|split; [done|]]. apply last_snoc.
Qed.

(** The writes of a run in which every write succeeds. *)
Lemma generate_blog_trace (source output today : string) (listing : option (list DirEntry)) :
  (forall p, write_error p = None) ->
  sort_posts (assembled today (discovered listing)) <> [] ->
  let ps := sort_posts (assembled today (discovered listing)) in
  let r := main source output today listing in
  r.2 = Ok tt /\
  writes (trace r.1) =
    map (fun p => (page_path output p, render_post p)) ps ++
    [([output; "index.html"], render_index ps); ([output; "styles.css"], css_content)].
Proof.
  intros Hok Hne. rewrite main_run.
  destruct (after_processing_facts source output today listing) as (Hp & Ho & Hw). cbv zeta.
  set (w := after_processing source output today listing) in *.
  rewrite Hp. destruct (sort_posts _) as [|p0 ps] eqn:E; [done|]. rewrite <- E in Hp |- *.
  py_seq apply print_run. py_seq (apply generate_post_pages_ok; intros; apply Hok).
  py_seq apply print_run. py_seq (apply generate_index_page_ok, Hok).
  py_seq apply print_run. py_seq (apply generate_css_ok, Hok).
  py_seq apply print_run. py_seq apply print_run. rewrite print_run.
  split; [done|]. simpl.
  rewrite !writes_app, Hw. cbn [writes app]. rewrite writes_map, Hp, Ho, !app_nil_r, <- !app_assoc. done.
Qed.

(** C12: when every write succeeds and some post assembles, the run
    writes one page per post at [posts/<slug>.html] in the order of the
    sorted collection, then the index page of that collection, then the
    stylesheet, and nothing else. *)
Theorem generate_blog_writes (source output today : string) (listing : option (list DirEntry)) :
  (forall p, write_error p = None) ->
  sort_posts (assembled today (discovered listing)) <> [] ->
  let ps := sort_posts (assembled today (discovered listing)) in
  let r := main source output today listing in
  r.2 = Ok tt /\
  writes (trace r.1) =
    map (fun p => (page_path output p, render_post p)) ps ++
    [([output; "index.html"], render_index ps); ([output; "styles.css"], css_content)].
Proof. exact (generate_blog_trace source output today listing). Qed.

(** C14: pages are written in the order of the collection, newest first,
    so when several posts derive the same slug the file
    [posts/<slug>.html] left at the end holds the page of the last of
    them, the one with the smallest date; the other ones are
    overwritten (spec, sections 4.2 and 9, leave the winner open). *)
Theorem generate_blog_page_file (source output today s : string) (listing : option (list DirEntry)) :
  (forall p, write_error p = None) ->
  sort_posts (assembled today (discovered listing)) <> [] ->
  let ps := sort_posts (assembled today (discovered listing)) in
  files_of (trace (main source output today listing).1) !! [output; "posts"; s +:+ ".html"] =
  render_post <$> last (filter (fun p => slug p = s) ps).
Proof.
  intros Hok Hne ps. destruct (generate_blog_trace source output today listing Hok Hne) as [_ Hw].
  rewrite files_of_lookup, Hw, last_write_app. simpl.
  rewrite !decide_False by done. apply last_write_pages.
Qed.

(** C15: the first page whose write raises ends the whole run with that
    exception: the pages before it stay written, and no later page, no
    index and no stylesheet is written (spec section 7 asks for a
    per-file failure reported at the end). *)
Theorem generate_blog_write_failure (source output today : string) (listing : option (list DirEntry))
    (pre : list Post) (p : Post) (post : list Post) (e : string) :
  sort_posts (assembled today (discovered listing)) = pre ++ p :: post ->
  (forall q, q ∈ pre -> write_error (page_path output q) = None) ->
  write_error (page_path output p) = Some e ->
  let r := main source output today listing in
  r.2 = Err e /\ writes (trace r.1) = map (fun q => (page_path output q, render_post q)) pre.
Proof.
  intros Hps Hok He. rewrite main_run.
  destruct (after_processing_facts source output today listing) as (Hp & Ho & Hw). cbv zeta.
  set (w := after_processing source output today listing) in *.
  rewrite match_list_nonempty by (rewrite Hp, Hps; by destruct pre).
  py_seq apply print_run.
  erewrite bind_err; [|apply (generate_post_pages_fail _ pre p post e); cbn [gen with_effect];
    rewrite ?Ho; [by rewrite Hp|done|done]].
  split; [done|]. cbn [fst trace gen with_effect]. rewrite !writes_app, Hw. cbn [writes app].
  by rewrite writes_map, Ho.
Qed.
End Theorems.

(** ** Witnesses *)

(** Templates that show the date of a post and the titles of the index,
    storage that accepts every write, and storage that refuses one file. *)
Definition templates_dates : Templates :=
  {| render_post := date; render_index := fun ps => String.concat "," (map title ps) |}.
Definition storage_ok : Storage := {| write_error := fun _ => None |}.
Definition storage_refusing (bad : list string) : Storage :=
  {| write_error := fun p => if decide (p = bad) then Some "disk full" else None |}.

Definition same_title_docs : list DirEntry :=
  [dated_doc "new.md" "Same" "2024-01-01"; dated_doc "old.md" "Same" "2023-01-01";
   dated_doc "other.md" "Other" "2023-06-01"].

Lemma generate_blog_empty_corpus_witness :
  @assembled markdown_verbatim "2024-06-01" (discovered None) = [] /\
  let r := @main markdown_verbatim templates_dates storage_ok "posts" "output" "2024-06-01" None in
  r.2 = Ok tt /\ writes (trace r.1) = [] /\ last (trace r.1) = Some (Print MsgNoPosts).
Proof. split; [reflexivity|]. apply generate_blog_empty_corpus. reflexivity. Defined.

Lemma generate_blog_writes_witness :
  (forall p, @write_error storage_ok p = None) /\
  @sort_posts (@assembled markdown_verbatim "2024-06-01" (discovered (Some same_title_docs))) <> [] /\
  let ps := sort_posts (@assembled markdown_verbatim "2024-06-01" (discovered (Some same_title_docs))) in
  let r := @main markdown_verbatim templates_dates storage_ok "posts" "output" "2024-06-01"
             (Some same_title_docs) in
  r.2 = Ok tt /\
  writes (trace r.1) =
    map (fun p => (page_path "output" p, @render_post templates_dates p)) ps ++
    [(["output"; "index.html"], @render_index templates_dates ps);
     (["output"; "styles.css"], css_content)].
Proof.
  split; [done|]. split; [vm_compute; discriminate|].
  apply generate_blog_writes; [done|vm_compute; discriminate].
Defined.

(** Two posts titled [Same]: the page left is the one of 2023. *)
Lemma generate_blog_page_file_witness :
  (forall p, @write_error storage_ok p = None) /\
  @sort_posts (@assembled markdown_verbatim "2024-06-01" (discovered (Some same_title_docs))) <> [] /\
  files_of (trace (@main markdown_verbatim templates_dates storage_ok "posts" "output" "2024-06-01"
                     (Some same_title_docs)).1) !! ["output"; "posts"; "same" +:+ ".html"] =
  Some "2023-01-01".
Proof.
  split; [done|]. split; [vm_compute; discriminate|].
  rewrite (@generate_blog_page_file markdown_verbatim templates_dates storage_ok); [|done|vm_compute; discriminate].
  vm_compute. reflexivity.
Defined.


Definition same_new : Post := mkPost "Same" "2024-01-01" "Anonymous" [] "same" "Body of Same" "new".
Definition other_post : Post := mkPost "Other" "2023-06-01" "Anonymous" [] "other" "Body of Other" "other".
Definition same_old : Post := mkPost "Same" "2023-01-01" "Anonymous" [] "same" "Body of Same" "old".

(** The second page of the run cannot be written: only the first page is
    on disk and the run ends with the error. *)
Lemma generate_blog_write_failure_witness :
  let st := storage_refusing ["output"; "posts"; "other.html"] in
  sort_posts (@assembled markdown_verbatim "2024-06-01" (discovered (Some same_title_docs))) =
    [same_new] ++ other_post :: [same_old] /\
  (forall q, q ∈ [same_new] -> @write_error st (page_path "output" q) = None) /\
  @write_error st (page_path "output" other_post) = Some "disk full" /\
  let r := @main markdown_verbatim templates_dates st "posts" "output" "2024-06-01"
             (Some same_title_docs) in
  r.2 = Err "disk full" /\
  writes (trace r.1) = map (fun q => (page_path "output" q, @render_post templates_dates q)) [same_new].
Proof.
  assert (Hs : sort_posts (@assembled markdown_verbatim "2024-06-01" (discovered (Some same_title_docs))) =
               [same_new] ++ other_post :: [same_old]) by (vm_compute; reflexivity).
  assert (Hok : forall q, q ∈ [same_new] ->
    @write_error (storage_refusing ["output"; "posts"; "other.html"]) (page_path "output" q) = None).
  { intros q Hq. apply list_elem_of_singleton in Hq. subst q. reflexivity. }
  split; [exact Hs|]. split; [exact Hok|]. split; [reflexivity|].
  exact (@generate_blog_write_failure markdown_verbatim templates_dates
           (storage_refusing ["output"; "posts"; "other.html"]) "posts" "output" "2024-06-01"
           (Some same_title_docs) [same_new] other_post [same_old] "disk full" Hs Hok eq_refl).
Defined.

End Writer.
