(* ===== verification/PyInt.v ===== *)
(** * Python [int()] on strings and [str()] of an int

    The todo tool turns its command-line argument into a task id with
    [int(sys.argv[2])] and prints ids with [f"[{task['id']}]"].  This file
    models both conversions for base 10 on the Latin-1 range: [py_int]
    strips whitespace, accepts one sign, and digits with single
    underscores between them; [py_str_int] writes the decimal digits,
    with [-] for negative numbers.  The digits of a number are computed
    by well-founded recursion (Equations), and the round trip
    [py_int (py_str_int z) = Some z] is proved: an id printed by the tool
    is read back as the same id. *)

From S2P Require Import Prelude.
From S2P Require Import PyStr.
From Equations Require Import Equations.
From Equations.Prop Require Import Logic.

Local Open Scope Z_scope.

(** ** Parsing *)

(** The decimal value of a character: only 0-9 in Latin-1. *)
Definition digit_value (c : ascii) : option Z :=
  if in_range 48 57 (cp c) then Some (Z.of_nat (cp c) - 48) else None.

(** Digits with single underscores between them, read left to right;
    [after_digit] says that the previous character was a digit. *)
Fixpoint digits_go (acc : Z) (after_digit : bool) (s : string) : option Z :=
  match s with
  | EmptyString => if after_digit then Some acc else None
  | String c s' =>
      if Ascii.eqb c "_" then (if after_digit then digits_go acc false s' else None)
      else match digit_value c with
           | Some d => digits_go (acc * 10 + d) true s'
           | None => None
           end
  end.

(** [int(s)]: [None] is the [ValueError] it raises. *)
Definition py_int (s : string) : option Z :=
  match py_strip s with
  | String "+" r => digits_go 0 false r
  | String "-" r => option_map Z.opp (digits_go 0 false r)
  | t => digits_go 0 false t
  end.

(** ** Printing *)

(** The decimal digits of [n >= 0], most significant first. *)
Equations? digits_of (n : Z) : list Z by wf (Z.to_nat n) lt :=
  digits_of n with inspect (Z.ltb n 10) => {
    | exist _ true _ := [n];
    | exist _ false H := digits_of (n / 10) ++ [n mod 10] }.
Proof.
  apply Z.ltb_ge in H. apply Z2Nat.inj_lt; [apply Z.div_pos; lia|lia|].
  apply Z.div_lt; lia.
Qed.

Definition digit_char (d : Z) : ascii := ascii_of_nat (Z.to_nat d + 48).

Definition string_of_digits (ds : list Z) : string :=
  fold_right (fun d s => String (digit_char d) s) EmptyString ds.

(** [str(z)]. *)
Definition py_str_int (z : Z) : string :=
  if Z.ltb z 0 then String "-" (string_of_digits (digits_of (- z)))
  else string_of_digits (digits_of z).


(** ** Lemmas *)

Definition digits_value (ds : list Z) (acc : Z) : Z := fold_left (fun a d => a * 10 + d) ds acc.

Lemma digits_of_spec (n : Z) :
  0 <= n -> digits_of n <> [] /\ Forall (fun d => 0 <= d <= 9) (digits_of n) /\ digits_value (digits_of n) 0 = n.
Proof.
  funelim (digits_of n); intros Hn.
  - pose proof (proj1 (Z.ltb_lt _ _) e). split; [done|split; [repeat constructor; lia|done]].
  - match goal with Hf : Z.ltb n 10 = false |- _ => pose proof (proj1 (Z.ltb_ge _ _) Hf) end.
    match goal with IH : 0 <= n / 10 -> _ |- _ => destruct IH as (Hne & Hd & Hv); [apply Z.div_pos; lia|] end.
    split; [by destruct (digits_of (n / 10))|split].
    + apply Forall_app; split; [done|]. constructor; [|done]. pose proof (Z.mod_pos_bound n 10). lia.
    + unfold digits_value in *. rewrite fold_left_app. simpl. rewrite Hv.
      pose proof (Z.div_mod n 10). lia.
Qed.

Lemma digit_value_char d : 0 <= d <= 9 -> digit_value (digit_char d) = Some d.
Proof.
  intros Hd. assert (d = 0 \/ d = 1 \/ d = 2 \/ d = 3 \/ d = 4 \/ d = 5 \/ d = 6 \/ d = 7 \/ d = 8 \/ d = 9)
    as Hc by lia.
  repeat destruct Hc as [-> | Hc]; [reflexivity..|]. subst. reflexivity.
Qed.

Lemma digits_go_string (ds : list Z) (acc : Z) (b : bool) :
  ds <> [] -> Forall (fun d => 0 <= d <= 9) ds ->
  digits_go acc b (string_of_digits ds) = Some (digits_value ds acc).
Proof.
  revert acc b. induction ds as [|d ds IH]; intros acc b Hne Hds; [done|].
  apply Forall_cons in Hds as [Hd Hds]. simpl.
  assert (Hnu : Ascii.eqb (digit_char d) "_" = false).
  { apply Ascii.eqb_neq. intros E. apply (f_equal digit_value) in E.
    rewrite digit_value_char in E by done. discriminate. }
  rewrite Hnu, digit_value_char by done.
  destruct ds as [|d' ds]; [done|]. apply IH; [done|done].
Qed.

Lemma digit_char_not_space d : 0 <= d <= 9 -> is_space (digit_char d) = false.
Proof.
  intros Hd. assert (d = 0 \/ d = 1 \/ d = 2 \/ d = 3 \/ d = 4 \/ d = 5 \/ d = 6 \/ d = 7 \/ d = 8 \/ d = 9)
    as Hc by lia.
  repeat destruct Hc as [-> | Hc]; [reflexivity..|]. subst. reflexivity.
Qed.

Lemma string_of_digits_no_space ds :
  Forall (fun d => 0 <= d <= 9) ds -> str_forallb (fun c => negb (is_space c)) (string_of_digits ds) = true.
Proof.
  induction ds as [|d ds IH]; intros Hds; [done|]. apply Forall_cons in Hds as [Hd Hds].
  simpl. rewrite digit_char_not_space, IH by done. done.
Qed.

(** The parse of a digit string: its first character is neither sign. *)
Lemma py_int_digits ds :
  ds <> [] -> Forall (fun d => 0 <= d <= 9) ds -> py_int (string_of_digits ds) = Some (digits_value ds 0).
Proof.
  intros Hne Hds. unfold py_int. unfold py_strip. rewrite strip_by_none by (by apply string_of_digits_no_space).
  rewrite <- (digits_go_string ds 0 false) by done.
  destruct ds as [|d ds]; [done|]. apply Forall_cons in Hds as [Hd _].
  assert (d = 0 \/ d = 1 \/ d = 2 \/ d = 3 \/ d = 4 \/ d = 5 \/ d = 6 \/ d = 7 \/ d = 8 \/ d = 9)
    as Hc by lia.
  repeat destruct Hc as [-> | Hc]; [reflexivity..|]. subst. reflexivity.
Qed.

(** [int(str(z)) == z]: an integer printed by Python reads back as itself. *)
Theorem py_int_str_roundtrip (z : Z) : py_int (py_str_int z) = Some z.
Proof.
  unfold py_str_int. destruct (Z.ltb_spec z 0) as [Hz|Hz].
  - destruct (digits_of_spec (- z)) as (Hne & Hd & Hv); [lia|].
    unfold py_int, py_strip. rewrite strip_by_none.
    + simpl. rewrite digits_go_string by done. rewrite Hv. simpl. f_equal. lia.
    + simpl. by apply string_of_digits_no_space.
  - destruct (digits_of_spec z) as (Hne & Hd & Hv); [lia|].
    rewrite py_int_digits by done. by rewrite Hv.
Qed.

Example py_int_examples :
  py_int " 42 " = Some 42 /\ py_int "+7" = Some 7 /\ py_int "-0" = Some 0 /\
  py_int "1_000" = Some 1000 /\ py_int "1__0" = None /\ py_int "_1" = None /\
  py_int "4 2" = None /\ py_int "" = None /\ py_int "abc" = None /\
  py_str_int (-305) = "-305".
Proof. repeat split; reflexivity. Qed.
