(* ===== verification/Todo.v ===== *)
(** * The todo command-line tool

    Source: src/outputs/03-todo-cli-tool/todo.py.  [TodoManager] keeps the
    list [self.todos] of task dicts and mirrors it into [todos.json] after
    every change; [main] runs one command per invocation.

    The model: a task dict is a [Task] record ([completed_at] is [None]
    until the task is completed); the file [todos.json] is a [Stored]
    value (absent, not valid JSON, or a saved list); one invocation of the
    program is [main argv now], a [PyM TodoWorld] method whose state holds
    [self.todos], the file and the printed lines; [datetime.now()
    .isoformat()] is the parameter [now].  Python's [int()] on a command
    argument is [py_int].  Across invocations the tool is the state machine
    [todo_step] on the stored file.

    The theorems give each command's effect, the invariant of the ids
    (positive; equal to the positions when no task was deleted) and its
    failure: a task added after a deletion can take the id of a task still
    in the list. *)

From S2P Require Import Prelude.
From S2P Require Import PyStr.
From S2P Require Import PyInt.

Module Todo.
Local Open Scope string_scope.
Local Open Scope list_scope.

(** ** Data *)

(** The task dict of lines 27-32, with the key [completed_at] of line 53
    ([None] while the dict has no such key). *)
Record Task : Type := mkTask {
  id : Z;
  description : string;
  completed : bool;
  created_at : string;
  completed_at : option string
}.

(** The file [todos.json]: missing, holding text that is not JSON, or a
    list of tasks written by [save_todos]. *)
Inductive Stored : Type :=
| Absent
| Corrupt
| Saved (tasks : list Task).

(** The lines printed. *)
Inductive Out : Type :=
| OutHelp                                        (* show_help *)
| OutAdded (description : string)                (* line 35 *)
| OutNoTasks                                     (* line 39 *)
| OutHeader                                      (* lines 42-43 *)
| OutTask (completed : bool) (id : Z) (description : string)  (* line 46 *)
| OutBlank                                       (* line 47 *)
| OutCompleted (description : string)            (* line 55 *)
| OutDeleted (description : string)              (* line 64 *)
| OutNotFound (id : Z)                           (* lines 57, 66 *)
| OutNeedDescription                             (* line 95 *)
| OutNeedId                                      (* lines 105, 115 *)
| OutIdNotNumber                                 (* lines 111, 121 *)
| OutUnknown (command : string).                 (* line 127 *)

(** [self.todos], the file and the terminal. *)
Record TodoWorld : Type := mkTodoWorld {
  todos : list Task;
  store : Stored;
  out : list Out
}.

Definition set_todos (ts : list Task) (w : TodoWorld) : TodoWorld := mkTodoWorld ts (store w) (out w).
Definition print (o : Out) : PyM TodoWorld unit :=
  py_modify (fun w => mkTodoWorld (todos w) (store w) (out w ++ [o])).

(** ** The methods *)

(** [load_todos()]: a missing file and a [JSONDecodeError] both give []. *)
Definition load_todos (f : Stored) : list Task :=
  match f with
  | Saved ts => ts
  | Absent | Corrupt => []
  end.

(** [TodoManager.__init__]: [self.todos = self.load_todos()]. *)
Definition init_manager : PyM TodoWorld unit :=
  py_modify (fun w => set_todos (load_todos (store w)) w).

(** [save_todos()]. *)
Definition save_todos : PyM TodoWorld unit :=
  py_modify (fun w => mkTodoWorld (todos w) (Saved (todos w)) (out w)).

(** [add_task(description)]. *)
Definition add_task (now description : string) : PyM TodoWorld unit :=
  ts ← py_gets todos;
  let task := mkTask (Z.of_nat (length ts) + 1) description false now None in
  py_modify (set_todos (ts ++ [task]));;
  save_todos;;
  print (OutAdded description).

(** The line printed for a task by line 46. *)
Definition task_line (t : Task) : Out := OutTask (completed t) (id t) (description t).

(** [list_tasks()]. *)
Definition list_tasks : PyM TodoWorld unit :=
  ts ← py_gets todos;
  match ts with
  | [] => print OutNoTasks
  | _ :: _ =>
      print OutHeader;;
      py_for ts (fun t => print (task_line t));;
      print OutBlank
  end.

(** The task dict after lines 52-53. *)
Definition mark_completed (now : string) (t : Task) : Task :=
  mkTask (id t) (description t) true (created_at t) (Some now).

(** The loop of [complete_task]: the first task with the id is marked;
    [None] when the loop ends without a match. *)
Fixpoint complete_first (now : string) (task_id : Z) (ts : list Task) : option (Task * list Task) :=
  match ts with
  | [] => None
  | t :: ts' =>
      if Z.eqb (id t) task_id then Some (mark_completed now t, mark_completed now t :: ts')
      else match complete_first now task_id ts' with
           | Some (x, r) => Some (x, t :: r)
           | None => None
           end
  end.

(** [complete_task(task_id)]. *)
Definition complete_task (now : string) (task_id : Z) : PyM TodoWorld unit :=
  ts ← py_gets todos;
  match complete_first now task_id ts with
  | Some (task, ts') =>
      py_modify (set_todos ts');;
      save_todos;;
      print (OutCompleted (description task))
  | None => print (OutNotFound task_id)
  end.

(** The loop of [delete_task]: [self.todos.pop(i)] for the first [i] whose
    task has the id. *)
Fixpoint pop_first (task_id : Z) (ts : list Task) : option (Task * list Task) :=
  match ts with
  | [] => None
  | t :: ts' =>
      if Z.eqb (id t) task_id then Some (t, ts')
      else match pop_first task_id ts' with
           | Some (x, r) => Some (x, t :: r)
           | None => None
           end
  end.

(** [delete_task(task_id)]. *)
Definition delete_task (task_id : Z) : PyM TodoWorld unit :=
  ts ← py_gets todos;
  match pop_first task_id ts with
  | Some (deleted_task, ts') =>
      py_modify (set_todos ts');;
      save_todos;;
      print (OutDeleted (description deleted_task))
  | None => print (OutNotFound task_id)
  end.

(** [show_help()]: one multi-line print. *)
Definition show_help : PyM TodoWorld unit := print OutHelp.

(** The exception [int()] raises on a string that is not an integer. *)
Definition ValueError : string := "ValueError".

(** [int(arg)]. *)
Definition py_int_call (arg : string) : PyM TodoWorld Z :=
  py_lift (match py_int arg with Some z => Ok z | None => Err ValueError end).

(** [try: m except ValueError: h]: other exceptions propagate. *)
Definition except_value_error (m h : PyM TodoWorld unit) : PyM TodoWorld unit :=
  py_try m (fun e => if String.eqb e ValueError then h else py_raise e).

(** Lines 104-111 (and 114-121): the id argument of [complete] and
    [delete], given [sys.argv[2:]]. *)
Definition id_command (args : list string) (k : Z -> PyM TodoWorld unit) : PyM TodoWorld unit :=
  match args with
  | [] => print OutNeedId
  | arg :: _ =>
      except_value_error (task_id ← py_int_call arg; k task_id) (print OutIdNotNumber)
  end.

(** [main()], given [sys.argv] and the time [datetime.now().isoformat()]
    returns during the run. *)
Definition main (now : string) (argv : list string) : PyM TodoWorld unit :=
  match argv with
  | [] | [_] => show_help
  | _ :: arg1 :: args =>
      init_manager;;
      let command := py_lower arg1 in
      if String.eqb command "add" then
        match args with
        | [] => print OutNeedDescription
        | _ :: _ => add_task now (String.concat " " args)
        end
      else if String.eqb command "list" then list_tasks
      else if String.eqb command "complete" then id_command args (complete_task now)
      else if String.eqb command "delete" then id_command args delete_task
      else if String.eqb command "help" then show_help
      else print (OutUnknown command);; show_help
  end.

(** ** Invocations *)

(** One run of the program on the file [f]: the file it leaves and the
    lines it prints.  [self.todos] starts empty: the help path (line 87)
    never creates the manager. *)
Definition run (now : string) (argv : list string) (f : Stored) : Stored * list Out :=
  let '(w, _) := main now argv (mkTodoWorld [] f []) in (store w, out w).

(** The tool across invocations: each step is one run. *)
Inductive todo_step : Stored -> Stored -> Prop :=
| TodoRun (now : string) (argv : list string) (f : Stored) : todo_step f (run now argv f).1.

(** The command word of a command line. *)
Definition command_of (argv : list string) : option string :=
  match argv with
  | _ :: c :: _ => Some (py_lower c)
  | _ => None
  end.

(** A run whose command is not [delete]. *)
Inductive todo_step_nd : Stored -> Stored -> Prop :=
| TodoRunNd (now : string) (argv : list string) (f : Stored) :
    command_of argv <> Some "delete" -> todo_step_nd f (run now argv f).1.

(** ** Specification notions *)

(** The lines [list_tasks] prints for [ts]. *)
Definition listing (ts : list Task) : list Out :=
  match ts with
  | [] => [OutNoTasks]
  | _ :: _ => OutHeader :: map task_line ts ++ [OutBlank]
  end.

(** A task as the tool writes it: a positive id, and a completion time
    exactly when it is completed. *)
Definition task_wf (t : Task) : Prop :=
  (0 < id t)%Z /\ (completed t = true <-> is_Some (completed_at t)).

Definition stored_wf (f : Stored) : Prop := Forall task_wf (load_todos f).

(** The ids are 1, 2, ..., n in list order. *)
Definition ids_consecutive (ts : list Task) : Prop :=
  map id ts = map (fun i => Z.of_nat i + 1)%Z (seq 0 (length ts)).

(** The tasks before the first one with id [n]. *)
Definition no_id (n : Z) (pre : list Task) : Prop := Forall (fun u => id u <> n) pre.

(** The commands [main] knows. *)
Definition known_commands : list string := ["add"; "list"; "complete"; "delete"; "help"].

(** The commands that take an id. *)
Definition id_commands : list string := ["complete"; "delete"].

(** The behaviour of one invocation, command by command, as the help text
    of lines 72-77 and the messages of [main] describe it: [todo_spec now
    argv f (f', outs)] says that on the file [f] the command line [argv]
    leaves the file [f'] and prints [outs].  The loops of [complete_task]
    and [delete_task] are described by the position of the first task
    with the id: [pre ++ t :: post] with no such id in [pre]. *)
Inductive todo_spec (now : string) : list string -> Stored -> Stored * list Out -> Prop :=
| spec_usage argv f :
    length argv < 2 -> todo_spec now argv f (f, [OutHelp])
| spec_add p c d ds f :
    py_lower c = "add" ->
    let ts := load_todos f in
    let task := mkTask (Z.of_nat (length ts) + 1) (String.concat " " (d :: ds)) false now None in
    todo_spec now (p :: c :: d :: ds) f (Saved (ts ++ [task]), [OutAdded (description task)])
| spec_add_missing p c f :
    py_lower c = "add" -> todo_spec now [p; c] f (f, [OutNeedDescription])
| spec_list p c args f :
    py_lower c = "list" -> todo_spec now (p :: c :: args) f (f, listing (load_todos f))
| spec_complete p c a rest f n pre t post :
    py_lower c = "complete" -> py_int a = Some n ->
    load_todos f = pre ++ t :: post -> no_id n pre -> id t = n ->
    todo_spec now (p :: c :: a :: rest) f
      (Saved (pre ++ mark_completed now t :: post), [OutCompleted (description t)])
| spec_delete p c a rest f n pre t post :
    py_lower c = "delete" -> py_int a = Some n ->
    load_todos f = pre ++ t :: post -> no_id n pre -> id t = n ->
    todo_spec now (p :: c :: a :: rest) f (Saved (pre ++ post), [OutDeleted (description t)])
| spec_not_found p c a rest f n :
    py_lower c ∈ id_commands -> py_int a = Some n -> no_id n (load_todos f) ->
    todo_spec now (p :: c :: a :: rest) f (f, [OutNotFound n])
| spec_need_id p c f :
    py_lower c ∈ id_commands -> todo_spec now [p; c] f (f, [OutNeedId])
| spec_not_number p c a rest f :
    py_lower c ∈ id_commands -> py_int a = None ->
    todo_spec now (p :: c :: a :: rest) f (f, [OutIdNotNumber])
| spec_help p c args f :
    py_lower c = "help" -> todo_spec now (p :: c :: args) f (f, [OutHelp])
| spec_unknown p c args f :
    py_lower c ∉ known_commands ->
    todo_spec now (p :: c :: args) f (f, [OutUnknown (py_lower c); OutHelp]).

(** ** Lemmas *)

(** The run of each method. *)
Lemma todo_print_run o w : print o w = (mkTodoWorld (todos w) (store w) (out w ++ [o]), Ok tt).
Proof. reflexivity. Qed.

Lemma add_task_run now d w :
  add_task now d w =
  (let ts := todos w ++ [mkTask (Z.of_nat (length (todos w)) + 1) d false now None] in
   mkTodoWorld ts (Saved ts) (out w ++ [OutAdded d]), Ok tt).
Proof. reflexivity. Qed.

Lemma print_all_run (ts : list Task) w :
  py_for ts (fun t => print (task_line t)) w =
  (mkTodoWorld (todos w) (store w) (out w ++ map task_line ts), Ok tt).
Proof.
  revert w. induction ts as [|t ts IH]; intros w; simpl.
  - destruct w. by rewrite app_nil_r.
  - rewrite bind_run, todo_print_run, IH. cbn. by rewrite <- app_assoc.
Qed.

Lemma list_tasks_run w :
  list_tasks w = (mkTodoWorld (todos w) (store w) (out w ++ listing (todos w)), Ok tt).
Proof.
  unfold list_tasks. rewrite bind_run. cbn [py_gets]. destruct (todos w) as [|t ts] eqn:E; [by rewrite todo_print_run, E|].
  rewrite bind_run, todo_print_run, bind_run, print_all_run, todo_print_run. cbn.
  by rewrite E, <- !app_assoc.
Qed.

Lemma complete_task_run now n w :
  complete_task now n w =
  match complete_first now n (todos w) with
  | Some (t, ts') => (mkTodoWorld ts' (Saved ts') (out w ++ [OutCompleted (description t)]), Ok tt)
  | None => (mkTodoWorld (todos w) (store w) (out w ++ [OutNotFound n]), Ok tt)
  end.
Proof. unfold complete_task. rewrite bind_run. cbn [py_gets]. by destruct (complete_first now n (todos w)) as [[t ts']|]. Qed.

Lemma delete_task_run n w :
  delete_task n w =
  match pop_first n (todos w) with
  | Some (t, ts') => (mkTodoWorld ts' (Saved ts') (out w ++ [OutDeleted (description t)]), Ok tt)
  | None => (mkTodoWorld (todos w) (store w) (out w ++ [OutNotFound n]), Ok tt)
  end.
Proof. unfold delete_task. rewrite bind_run. cbn [py_gets]. by destruct (pop_first n (todos w)) as [[t ts']|]. Qed.

(** The loops: the first task with the id, or none. *)
Lemma no_id_nil n : no_id n [].
Proof. constructor. Qed.
#[local] Hint Resolve no_id_nil : core.

Lemma complete_first_None now n ts : complete_first now n ts = None <-> no_id n ts.
Proof.
  unfold no_id. induction ts as [|t ts IH]; simpl; [split; by constructor|].
  rewrite Forall_cons. destruct (Z.eqb_spec (id t) n) as [E|E]; [naive_solver|].
  rewrite <- IH. destruct (complete_first now n ts) as [[??]|]; naive_solver.
Qed.

Lemma complete_first_split now n pre u post :
  no_id n pre -> id u = n ->
  complete_first now n (pre ++ u :: post) = Some (mark_completed now u, pre ++ mark_completed now u :: post).
Proof.
  induction pre as [|w pre IH]; intros Hpre Hu; simpl; [by rewrite Hu, Z.eqb_refl|].
  apply Forall_cons in Hpre as [Hw Hpre]. by rewrite (proj2 (Z.eqb_neq _ _) Hw), IH.
Qed.

Lemma complete_first_Some now n ts t ts' :
  complete_first now n ts = Some (t, ts') <->
  exists pre u post, ts = pre ++ u :: post /\ no_id n pre /\ id u = n /\
                     t = mark_completed now u /\ ts' = pre ++ t :: post.
Proof.
  split; [|intros (pre & u & post & -> & ? & ? & -> & ->); by apply complete_first_split].
  revert ts'. induction ts as [|v ts IH]; intros ts' H; simpl in H; [done|].
  destruct (Z.eqb_spec (id v) n) as [E|E].
  - injection H as <- <-. by exists [], v, ts.
  - destruct (complete_first now n ts) as [[x r]|]; [|done]. injection H as <- <-.
    destruct (IH r eq_refl) as (pre & u & post & -> & ? & ? & -> & ->).
    exists (v :: pre), u, post. by repeat constructor.
Qed.

Lemma pop_first_None n ts : pop_first n ts = None <-> no_id n ts.
Proof.
  unfold no_id. induction ts as [|t ts IH]; simpl; [split; by constructor|].
  rewrite Forall_cons. destruct (Z.eqb_spec (id t) n) as [E|E]; [naive_solver|].
  rewrite <- IH. destruct (pop_first n ts) as [[??]|]; naive_solver.
Qed.

Lemma pop_first_split n pre t post :
  no_id n pre -> id t = n -> pop_first n (pre ++ t :: post) = Some (t, pre ++ post).
Proof.
  induction pre as [|w pre IH]; intros Hpre Ht; simpl; [by rewrite Ht, Z.eqb_refl|].
  apply Forall_cons in Hpre as [Hw Hpre]. by rewrite (proj2 (Z.eqb_neq _ _) Hw), IH.
Qed.

Lemma pop_first_Some n ts t ts' :
  pop_first n ts = Some (t, ts') <->
  exists pre post, ts = pre ++ t :: post /\ no_id n pre /\ id t = n /\ ts' = pre ++ post.
Proof.
  split; [|intros (pre & post & -> & ? & ? & ->); by apply pop_first_split].
  revert ts'. induction ts as [|v ts IH]; intros ts' H; simpl in H; [done|].
  destruct (Z.eqb_spec (id v) n) as [E|E].
  - injection H as <- <-. by exists [], ts.
  - destruct (pop_first n ts) as [[x r]|]; [|done]. injection H as <- <-.
    destruct (IH r eq_refl) as (pre & post & -> & ? & ? & ->).
    exists (v :: pre), post. by repeat constructor.
Qed.

(** The run of [main] on each command line. *)
Ltac run_main Hc := unfold run, main; rewrite Hc; simpl; try (rewrite bind_run; simpl).
Ltac int_arg Ha := unfold except_value_error, py_try, py_int_call; rewrite bind_run; cbn [py_lift]; rewrite Ha.

Lemma id_commands_cases c : c ∈ id_commands <-> c = "complete" \/ c = "delete".
Proof. unfold id_commands. by rewrite elem_of_cons, list_elem_of_singleton. Qed.


Lemma run_add now p c d ds f :
  py_lower c = "add" ->
  run now (p :: c :: d :: ds) f =
  (let ts := load_todos f in
   Saved (ts ++ [mkTask (Z.of_nat (length ts) + 1) (String.concat " " (d :: ds)) false now None]),
   [OutAdded (String.concat " " (d :: ds))]).
Proof. intros Hc. by run_main Hc. Qed.

Lemma run_add_missing now p c f : py_lower c = "add" -> run now [p; c] f = (f, [OutNeedDescription]).
Proof. intros Hc. by run_main Hc. Qed.

Lemma run_list now p c args f :
  py_lower c = "list" -> run now (p :: c :: args) f = (f, listing (load_todos f)).
Proof. intros Hc. run_main Hc. by rewrite list_tasks_run. Qed.

Lemma run_complete now p c a rest f n :
  py_lower c = "complete" -> py_int a = Some n ->
  run now (p :: c :: a :: rest) f =
  match complete_first now n (load_todos f) with
  | Some (t, ts') => (Saved ts', [OutCompleted (description t)])
  | None => (f, [OutNotFound n])
  end.
Proof.
  intros Hc Ha. run_main Hc. int_arg Ha.
  rewrite complete_task_run. simpl. by destruct complete_first as [[??]|].
Qed.

Lemma run_delete now p c a rest f n :
  py_lower c = "delete" -> py_int a = Some n ->
  run now (p :: c :: a :: rest) f =
  match pop_first n (load_todos f) with
  | Some (t, ts') => (Saved ts', [OutDeleted (description t)])
  | None => (f, [OutNotFound n])
  end.
Proof.
  intros Hc Ha. run_main Hc. int_arg Ha.
  rewrite delete_task_run. simpl. by destruct pop_first as [[??]|].
Qed.

Lemma run_not_number now p c a rest f :
  py_lower c ∈ id_commands -> py_int a = None ->
  run now (p :: c :: a :: rest) f = (f, [OutIdNotNumber]).
Proof. rewrite id_commands_cases. intros [Hc|Hc] Ha; run_main Hc; by int_arg Ha. Qed.

Lemma run_need_id now p c f : py_lower c ∈ id_commands -> run now [p; c] f = (f, [OutNeedId]).
Proof. rewrite id_commands_cases. intros [Hc|Hc]; by run_main Hc. Qed.

Lemma run_help now p c args f : py_lower c = "help" -> run now (p :: c :: args) f = (f, [OutHelp]).
Proof. intros Hc. by run_main Hc. Qed.

Lemma run_unknown now p c args f :
  py_lower c ∉ known_commands -> run now (p :: c :: args) f = (f, [OutUnknown (py_lower c); OutHelp]).
Proof.
  unfold known_commands. intros Hc. unfold run, main. cbv zeta.
  repeat (rewrite (proj2 (String.eqb_neq (py_lower c) _)) by set_solver). done.
Qed.


(** Every run of [main] is a behaviour the specification allows. *)
Lemma run_spec now argv f : todo_spec now argv f (run now argv f).
Proof.
  destruct argv as [|p [|c args]]; [apply spec_usage; simpl; lia..|].
  destruct (String.eqb_spec (py_lower c) "add") as [Hc|Ha].
  { destruct args as [|d ds]; [rewrite run_add_missing by done|rewrite run_add by done]; by constructor. }
  destruct (String.eqb_spec (py_lower c) "list") as [Hc|Hl]; [rewrite run_list by done; by constructor|].
  destruct (String.eqb_spec (py_lower c) "help") as [Hc|Hh]; [rewrite run_help by done; by constructor|].
  destruct (decide (py_lower c ∈ id_commands)) as [Hid|Hid].
  2:{ rewrite run_unknown; [constructor|]; unfold known_commands, id_commands in *; set_solver. }
  destruct args as [|a rest]; [rewrite run_need_id by done; by constructor|].
  destruct (py_int a) as [n|] eqn:Hn; [|rewrite run_not_number by done; by constructor].
  pose proof Hid as [Hc|Hc]%id_commands_cases.
  - rewrite (run_complete _ _ _ _ _ _ n) by done.
    destruct (complete_first now n (load_todos f)) as [[t ts']|] eqn:E.
    + apply complete_first_Some in E as (pre & u & post & Hf & Hpre & Hu & -> & ->).
      by apply (spec_complete now p c a rest f n pre u post).
    + apply spec_not_found; [done|done|]. by apply (complete_first_None now).
  - rewrite (run_delete _ _ _ _ _ _ n) by done.
    destruct (pop_first n (load_todos f)) as [[t ts']|] eqn:E.
    + apply pop_first_Some in E as (pre & post & Hf & Hpre & Ht & ->).
      by apply (spec_delete now p c a rest f n pre t post).
    + apply spec_not_found; [done|done|]. by apply pop_first_None.
Qed.

(** No method raises; [int()] raises only the [ValueError] that [main]
    catches. *)
Lemma no_raise_print o : no_raise (print o).
Proof. apply no_raise_modify. Qed.
#[local] Hint Resolve no_raise_print : py.

Lemma no_raise_id_command args k : (forall n, no_raise (k n)) -> no_raise (id_command args k).
Proof.
  intros Hk. destruct args as [|arg rest]; [apply no_raise_print|]. intros s.
  cbn [id_command]. unfold except_value_error, py_try, py_int_call. rewrite bind_run. cbn [py_lift].
  destruct (py_int arg) as [n|]; [|done].
  specialize (Hk n s). by destruct (k n s) as [s' [a|e]].
Qed.

Lemma no_raise_complete_task now n : no_raise (complete_task now n).
Proof. unfold complete_task. no_raise_steps. Qed.

Lemma no_raise_delete_task n : no_raise (delete_task n).
Proof. unfold delete_task. no_raise_steps. Qed.

#[local] Hint Resolve no_raise_id_command no_raise_complete_task no_raise_delete_task : py.

(** The store and the ids across runs. *)
Lemma task_wf_new now d n : task_wf (mkTask (Z.of_nat n + 1) d false now None).
Proof. split; simpl; [lia|]. split; [done|]. by intros [? ?]. Qed.

Lemma task_wf_mark now t : task_wf t -> task_wf (mark_completed now t).
Proof. intros [? _]. split; simpl; [done|]. split; [by eexists|done]. Qed.

Lemma run_wf now argv f : stored_wf f -> stored_wf (run now argv f).1.
Proof.
  unfold stored_wf. intros Hf. destruct (run_spec now argv f) as [| |? ? ? Hc|? ? ? ? Hc| p c a rest f' n pre t post Hc Ha Hl| p c a rest f' n pre t post Hc Ha Hl| | | | |];
    simpl; try done.
  - apply Forall_app; split; [done|]. constructor; [apply task_wf_new|done].
  - rewrite Hl, Forall_app, Forall_cons in Hf. apply Forall_app. naive_solver eauto using task_wf_mark.
  - rewrite Hl, Forall_app, Forall_cons in Hf. apply Forall_app. naive_solver.
Qed.

Lemma seq_ids_app n : map (fun i => Z.of_nat i + 1)%Z (seq 0 (S n)) = map (fun i => Z.of_nat i + 1)%Z (seq 0 n) ++ [Z.of_nat n + 1]%Z.
Proof. by rewrite seq_S, map_app. Qed.

Lemma run_nd_consecutive now argv f :
  command_of argv <> Some "delete" -> ids_consecutive (load_todos f) -> ids_consecutive (load_todos (run now argv f).1).
Proof.
  unfold ids_consecutive. intros Hd Hf.
  destruct (run_spec now argv f) as [| |? ? ? Hc|? ? ? ? Hc| p c a rest f' n pre t post Hc Ha Hl| p c a rest f' n pre t post Hc Ha Hl| | | | |];
    simpl; try done.
  - subst ts task. rewrite map_app, length_app. cbn [length]. rewrite Nat.add_1_r, seq_ids_app, Hf. done.
  - rewrite Hl in Hf. revert Hf. rewrite !map_app, !length_app. by cbn [map length mark_completed].
  - simpl in Hd. by rewrite Hc in Hd.
Qed.

Lemma consecutive_NoDup ts : ids_consecutive ts -> NoDup (map id ts).
Proof.
  unfold ids_consecutive. intros ->. apply NoDup_ListNoDup, NoDup_map_NoDup_ForallPairs; [intros i j _ _; lia|].
  apply NoDup_ListNoDup, NoDup_seq.
Qed.

(** With ids 1..n, the task with id [k < n] stands before a task with
    id [n]. *)
Lemma consecutive_from_split s ts (k : Z) :
  map id ts = map (fun i => Z.of_nat i + 1)%Z (seq s (length ts)) ->
  (Z.of_nat s + 1 <= k < Z.of_nat (s + length ts))%Z ->
  exists pre t post, ts = pre ++ t :: post /\ no_id k pre /\ id t = k /\
                     Z.of_nat (s + length ts) ∈ map id post.
Proof.
  revert s. induction ts as [|t ts IH]; intros s Hc Hk; simpl in *; [lia|].
  injection Hc as Ht Hc. destruct (decide (k = Z.of_nat s + 1)%Z) as [->|Hne].
  - exists [], t, ts. split_and!; [done|done|done|]. rewrite Hc.
    apply list_elem_of_In, in_map_iff. exists (s + length ts)%nat. split; [lia|].
    apply in_seq. lia.
  - destruct (IH (S s)) as (pre & u & post & -> & Hpre & Hu & Hn); [done|lia|].
    exists (t :: pre), u, post. split_and!; [done| |done|by rewrite Nat.add_succ_r].
    constructor; [lia|done].
Qed.

Lemma listing_ids ts c z d : OutTask c z d ∈ listing ts -> exists u, u ∈ ts /\ id u = z.
Proof.
  destruct ts as [|v vs]; cbn [listing]; [rewrite list_elem_of_singleton; discriminate|].
  rewrite elem_of_cons, elem_of_app, list_elem_of_singleton. intros [?|[Hin|?]]; try discriminate.
  apply list_elem_of_In, in_map_iff in Hin as (u & Hu & Hin).
  exists u. split; [by apply list_elem_of_In|]. by injection Hu.
Qed.

(** ** Theorems *)


(** C20: [main] never raises: the only exception of its body, the
    [ValueError] of [int()], is caught on every path. *)
Theorem main_never_raises (now : string) (argv : list string) : no_raise (main now argv).
Proof. unfold main, show_help, init_manager, add_task, list_tasks, save_todos. no_raise_steps. Qed.

(** C21: the tool only writes well-formed tasks: from a file whose tasks
    are well formed (a missing or corrupt file included), every sequence
    of invocations leaves tasks with positive ids and a completion time
    exactly on the completed ones. *)
Theorem todo_store_invariant (f f' : Stored) :
  stored_wf f -> rtc todo_step f f' -> stored_wf f'.
Proof.
  intros Hf Hs. induction Hs as [|f1 f2 f3 Hst _ IH]; [done|].
  apply IH. destruct Hst. by apply run_wf.
Qed.

Lemma todo_store_invariant_witness :
  let f := (run "2024-01-01T00:00:00" ["todo.py"; "add"; "Buy"; "milk"] Absent).1 in
  stored_wf Absent /\ rtc todo_step Absent f /\ stored_wf f.
Proof.
  split; [constructor|]. split; [apply rtc_once; constructor|].
  apply (todo_store_invariant Absent); [constructor|apply rtc_once; constructor].
Defined.

(** C22: as long as no task is deleted, the ids are 1, 2, ..., n in list
    order, so no two tasks share an id. *)
Theorem ids_consecutive_without_delete (f f' : Stored) :
  ids_consecutive (load_todos f) -> rtc todo_step_nd f f' ->
  ids_consecutive (load_todos f') /\ NoDup (map id (load_todos f')).
Proof.
  intros Hf Hs. cut (ids_consecutive (load_todos f')); [split; [done|by apply consecutive_NoDup]|].
  induction Hs as [|f1 f2 f3 Hst _ IH]; [done|]. apply IH. destruct Hst. by apply run_nd_consecutive.
Qed.

Lemma ids_consecutive_without_delete_witness :
  let f := (run "2024-01-01T00:00:00" ["todo.py"; "ADD"; "Buy milk"] Absent).1 in
  ids_consecutive (load_todos Absent) /\ rtc todo_step_nd Absent f /\
  ids_consecutive (load_todos f) /\ NoDup (map id (load_todos f)).
Proof.
  split; [reflexivity|]. split; [apply rtc_once; constructor; discriminate|].
  apply (ids_consecutive_without_delete Absent); [reflexivity|apply rtc_once; constructor; discriminate].
Defined.

(** C23: the id of a new task is [len(self.todos) + 1] (line 28), which a
    deletion makes stale: on a list with ids 1..n, deleting any task but
    the last and then adding one gives two tasks the id n. *)
Theorem delete_then_add_duplicate_id (now now' p d : string) (ds : list string) (f : Stored) (k : Z) :
  ids_consecutive (load_todos f) -> (1 <= k < Z.of_nat (length (load_todos f)))%Z ->
  let f1 := (run now [p; "delete"; py_str_int k] f).1 in
  let f2 := (run now' (p :: "add" :: d :: ds) f1).1 in
  ~ NoDup (map id (load_todos f2)).
Proof.
  intros Hc Hk f1 f2. subst f1 f2.
  destruct (consecutive_from_split 0 _ k Hc Hk) as (pre & t & post & Hf & Hpre & Ht & Hn).
  rewrite (run_delete now p "delete" (py_str_int k) [] f k), Hf, pop_first_split
    by (done || apply py_int_str_roundtrip).
  rewrite run_add by done. cbn [fst load_todos]. rewrite Hf, length_app in Hn. cbn [length] in Hn.
  rewrite !map_app, <- app_assoc, length_app. cbn [map id].
  rewrite !NoDup_app. intros (_ & _ & _ & Hdis & _). apply (Hdis _ Hn). apply list_elem_of_singleton. lia.
Qed.

(** The ids of two tasks, added in turn: 1 and 2. *)
Definition two_tasks : Stored := (run "t1" ["todo.py"; "add"; "b"] (run "t0" ["todo.py"; "add"; "a"] Absent).1).1.

Lemma delete_then_add_duplicate_id_witness :
  ids_consecutive (load_todos two_tasks) /\ (1 <= 1 < Z.of_nat (length (load_todos two_tasks)))%Z /\
  ~ NoDup (map id (load_todos (run "t3" ["todo.py"; "add"; "c"]
                                 (run "t2" ["todo.py"; "delete"; py_str_int 1] two_tasks).1).1)).
Proof.
  split; [reflexivity|]. split; [change (1 <= 1 < 2)%Z; lia|].
  apply (delete_then_add_duplicate_id "t2" "t3" "todo.py" "c" [] two_tasks 1); [reflexivity|change (1 <= 1 < 2)%Z; lia].
Defined.

(** A run of [delete] with the printed id of the first task removes that
    task. *)
Lemma delete_first_step t ts : todo_step (Saved (t :: ts)) (Saved ts).
Proof.
  assert (H : (run "" ["todo.py"; "delete"; py_str_int (id t)] (Saved (t :: ts))).1 = Saved ts).
  { rewrite (run_delete "" _ "delete" _ [] _ (id t)) by (done || apply py_int_str_roundtrip).
    simpl. by rewrite Z.eqb_refl. }
  rewrite <- H. constructor.
Qed.

(** C36: the task list can always be emptied: [n] runs of [delete] with
    the first listed id empty a list of [n] tasks, and from every file,
    missing or corrupt included, some sequence of invocations leaves the
    empty list (repeated ids do not block deletion, unlike completion). *)
Theorem todo_tasks_deletable :
  (forall ts, nsteps todo_step (length ts) (Saved ts) (Saved [])) /\
  (forall f, rtc todo_step f (Saved [])).
Proof.
  assert (Hn : forall ts, nsteps todo_step (length ts) (Saved ts) (Saved [])).
  { induction ts as [|t ts IH]; [constructor|]. econstructor; [apply delete_first_step|exact IH]. }
  split; [exact Hn|]. intros f.
  assert (Hadd : exists t, todo_step f (Saved (load_todos f ++ [t]))).
  { set (t := mkTask (Z.of_nat (length (load_todos f)) + 1) "x" false "" None). exists t.
    assert (H : (run "" ["todo.py"; "add"; "x"] f).1 = Saved (load_todos f ++ [t]))
      by (rewrite run_add by done; reflexivity).
    rewrite <- H. constructor. }
  destruct Hadd as [t Hadd]. eapply rtc_l; [exact Hadd|]. eapply rtc_nsteps_2, Hn.
Qed.

(** The session add a, add b, delete 1, add c leaves the tasks b and
    c both with id 2, and [complete 2] then always completes b: task c can
    be completed or deleted only after b is deleted. *)
Example duplicate_id_session :
  let f := (run "t3" ["todo.py"; "add"; "c"] (run "t2" ["todo.py"; "delete"; "1"] two_tasks).1).1 in
  map id (load_todos f) = [2; 2]%Z /\
  run "t4" ["todo.py"; "complete"; "2"] f =
  (Saved [mkTask 2 "b" true "t1" (Some "t4"); mkTask 2 "c" false "t3" None], [OutCompleted "b"]).
Proof. vm_compute. split; reflexivity. Qed.

(** C24: a task id printed by [list] is accepted back by [complete]: the
    printed decimal parses to the same id, and [complete] finds a task
    with it (the first one, which is the listed task unless ids repeat). *)
Theorem listed_id_completes (now now' p d : string) (c : bool) (args : list string) (f : Stored) (z : Z) :
  OutTask c z d ∈ (run now' (p :: "list" :: args) f).2 ->
  exists t, t ∈ load_todos f /\ id t = z /\
            (run now [p; "complete"; py_str_int z] f).2 = [OutCompleted (description t)].
Proof.
  rewrite run_list by done. intros (u & Hu & Huz)%listing_ids.
  rewrite (run_complete _ _ _ _ _ _ z) by (done || apply py_int_str_roundtrip).
  destruct (complete_first now z (load_todos f)) as [[t ts']|] eqn:E.
  - apply complete_first_Some in E as (pre & v & post & Hf & _ & Hv & -> & ->).
    exists v. split_and!; [rewrite Hf; set_solver|done|done].
  - apply complete_first_None in E. unfold no_id in E. rewrite Forall_forall in E. by destruct (E u Hu).
Qed.

Lemma listed_id_completes_witness :
  OutTask false 2 "b" ∈ (run "t5" ["todo.py"; "list"] two_tasks).2 /\
  exists t, t ∈ load_todos two_tasks /\ id t = 2%Z /\
            (run "t6" ["todo.py"; "complete"; py_str_int 2] two_tasks).2 = [OutCompleted (description t)].
Proof.
  split; [vm_compute; set_solver|].
  apply (listed_id_completes "t6" "t5" "todo.py" "b" false [] two_tasks 2). vm_compute. set_solver.
Defined.

(** C25: a [todos.json] that is not valid JSON is read as no tasks and is
    replaced, without a warning, by the first task added. *)
Theorem corrupt_file_replaced (now p d : string) (ds : list string) :
  run now [p; "list"] Corrupt = (Corrupt, [OutNoTasks]) /\
  (run now (p :: "add" :: d :: ds) Corrupt).1 = Saved [mkTask 1 (String.concat " " (d :: ds)) false now None].
Proof. split; [by rewrite run_list|by rewrite run_add]. Qed.

(** Command words are case-insensitive ([sys.argv[1].lower()]). *)
Theorem command_case_insensitive (now p c : string) (args : list string) (f : Stored) :
  run now (p :: c :: args) f = run now (p :: py_lower c :: args) f.
Proof. unfold run, main. by rewrite py_lower_idem. Qed.

End Todo.
