(* ===== verification/Cli.v ===== *)
(** * The command lines of the blog generator and of the file organizer

    blog_generator.py [main()] (lines 413-421) and organizer.py [main()]
    (lines 124-158): each builds an [argparse.ArgumentParser], parses
    [sys.argv[1:]] with [Args.parse_args], and runs the program on the
    parsed values.  [help] ends the process with status 0 and a usage
    error with status 2, before anything else happens. *)

From S2P Require Import Prelude.
From S2P Require Import PyStr.
From S2P Require Import Args.
From S2P Require Import Pipeline.
From S2P Require Import Writer.
From S2P Require Import Organizer.

Module Cli.
Import Argparse.
Local Open Scope string_scope.
Local Open Scope list_scope.

(** [sys.exit] by argparse: [help] (status 0) or a usage error
    (status 2). *)
Inductive Exit : Type := ExitHelp | ExitUsage (e : ArgError).

Definition exit_status (x : Exit) : Z := match x with ExitHelp => 0 | ExitUsage _ => 2 end.

(** ** The blog generator *)

(** [parser.add_argument('--source', '-s', default='posts', ...)] and
    [parser.add_argument('--output', '-o', default='output', ...)]. *)
Definition source_opt : Optional := mkOptional ["--source"; "-s"] "source" AStore (Some (VStr "posts")).
Definition output_opt : Optional := mkOptional ["--output"; "-o"] "output" AStore (Some (VStr "output")).

Definition blog_parser : Parser := mkParser [help_action; source_opt; output_opt] None.

(** [main()]: the listing of the source directory is the one of the
    directory the arguments name. *)
Definition blog_main `{Pipeline.Markdown} `{Pipeline.Templates} `{Pipeline.Storage} (today : string)
    (listing_of : string -> option (list Pipeline.DirEntry)) (argv : list string)
    : Exit + (Pipeline.World * result unit) :=
  match parse_args blog_parser argv with
  | ONs ns =>
      let source := ns_str ns "source" in
      inr (Writer.main source (ns_str ns "output") today (listing_of source))
  | OHelp => inl ExitHelp
  | OErr e => inl (ExitUsage e)
  end.

(** ** The file organizer *)

(** [parser.add_argument('directory', nargs='?', default='.', ...)] and
    [parser.add_argument('--dry-run', action='store_true', ...)]. *)
Definition dry_run_opt : Optional := mkOptional ["--dry-run"] "dry_run" AStoreTrue (Some (VBool false)).

Definition org_parser : Parser := mkParser [help_action; dry_run_opt] (Some (mkPositional "directory" ".")).

(** [main()]: the organizer on [args.directory] and [args.dry_run]; the
    names [os.listdir] gives are those of the directory [Path] names. *)
Definition org_main `{Organizer.OrgOS} (listing_of : list string -> list string) (argv : list string)
    (f : Organizer.FS) : Exit + (Organizer.FS * gmap string nat * list Organizer.OrgMsg) :=
  match parse_args org_parser argv with
  | ONs ns =>
      let directory := ns_str ns "directory" in
      inr (Organizer.run directory (listing_of (py_path directory)) (ns_bool ns "dry_run") f)
  | OHelp => inl ExitHelp
  | OErr e => inl (ExitUsage e)
  end.

(** ** Command lines *)

(** The two options of the blog generator, and the ways to give one a
    value: [--source v] or an abbreviation [--sou v] (the first [k]
    characters, [3 <= k <= 8]), [--sou=v], [-s v], [-sv], [-s=v]. *)
Inductive BlogOpt : Type := BSource | BOutput.
Inductive Spelling : Type := SLong (k : nat) | SLongEq (k : nat) | SShort | SShortJoined | SShortEq.

#[export] Instance BlogOpt_eq_dec : EqDecision BlogOpt.
Proof. solve_decision. Defined.

Definition bopt (b : BlogOpt) : Optional := match b with BSource => source_opt | BOutput => output_opt end.
Definition long_name (b : BlogOpt) : string := match b with BSource => "--source" | BOutput => "--output" end.
Definition short_name (b : BlogOpt) : string := match b with BSource => "-s" | BOutput => "-o" end.

Definition render (st : BlogOpt * Spelling * string) : list string :=
  let '(b, sp, v) := st in
  match sp with
  | SLong k => [String.substring 0 k (long_name b); v]
  | SLongEq k => [String.substring 0 k (long_name b) +:+ "=" +:+ v]
  | SShort => [short_name b; v]
  | SShortJoined => [short_name b +:+ v]
  | SShortEq => [short_name b +:+ "=" +:+ v]
  end.

(** When a spelling reads as the option with the value. *)
Definition setting_ok (st : BlogOpt * Spelling * string) : Prop :=
  let '(b, sp, v) := st in
  match sp with
  | SLong k => 3 <= k <= 8 /\ plain v = true
  | SLongEq k => 3 <= k <= 8
  | SShort => plain v = true
  | SShortJoined => match v with String c _ => c <> "="%char | EmptyString => False end
  | SShortEq => True
  end.

(** The value each option ends with: the last one given, or its default. *)
Definition last_value (b : BlogOpt) (sts : list (BlogOpt * Spelling * string)) (d : string) : string :=
  fold_left (fun acc '(b', _, v) => if decide (b = b') then v else acc) sts d.

(** The words of the organizer's command lines considered: [--dry-run]
    and arguments. *)
Definition org_word (a : string) : bool := String.eqb a "--dry-run" || plain a.


(** ** Lemmas *)

(** The words of one setting, classified. *)
Definition setting_toks (st : BlogOpt * Spelling * string) : list Tok :=
  let '(b, sp, v) := st in
  match sp with
  | SLong _ => [TOpt (Some (bopt b)) (long_name b) None; TArg v]
  | SLongEq _ => [TOpt (Some (bopt b)) (long_name b) (Some v)]
  | SShort => [TOpt (Some (bopt b)) (short_name b) None; TArg v]
  | SShortJoined | SShortEq => [TOpt (Some (bopt b)) (short_name b) (Some v)]
  end.

Lemma k_cases k : 3 <= k <= 8 -> k = 3 \/ k = 4 \/ k = 5 \/ k = 6 \/ k = 7 \/ k = 8.
Proof. lia. Qed.

(** Each spelling's option word, classified. *)
Lemma parse_long_abbrev b k :
  3 <= k <= 8 ->
  parse_optional blog_parser (String.substring 0 k (long_name b)) = inr (TOpt (Some (bopt b)) (long_name b) None).
Proof. intros Hk. destruct (k_cases k Hk) as [-> | [-> | [-> | [-> | [-> | ->]]]]]; by destruct b. Qed.

Lemma parse_long_eq b k v :
  3 <= k <= 8 ->
  parse_optional blog_parser (String.substring 0 k (long_name b) +:+ "=" +:+ v) =
  inr (TOpt (Some (bopt b)) (long_name b) (Some v)).
Proof. intros Hk. destruct (k_cases k Hk) as [-> | [-> | [-> | [-> | [-> | ->]]]]]; by destruct b. Qed.

Lemma parse_short b : parse_optional blog_parser (short_name b) = inr (TOpt (Some (bopt b)) (short_name b) None).
Proof. by destruct b. Qed.

Lemma parse_short_joined b c v :
  c <> "="%char ->
  parse_optional blog_parser (short_name b +:+ String c v) = inr (TOpt (Some (bopt b)) (short_name b) (Some (String c v))).
Proof.
  intros Hc. apply Ascii.eqb_neq in Hc.
  destruct b; unfold parse_optional, split_eq; simpl; rewrite Hc;
    destruct (split_once "=" v) as [[??]|]; reflexivity.
Qed.

Lemma parse_short_eq b v :
  parse_optional blog_parser (short_name b +:+ "=" +:+ v) = inr (TOpt (Some (bopt b)) (short_name b) (Some v)).
Proof. by destruct b. Qed.

Lemma classify_setting st rest :
  setting_ok st ->
  classify blog_parser (render st ++ rest) =
  match classify blog_parser rest with inl e => inl e | inr ts => inr (setting_toks st ++ ts) end.
Proof.
  destruct st as [[b sp] v]. destruct sp as [k|k| | |]; simpl setting_ok.
  - intros [Hk Hv]. cbn [render app classify].
    rewrite parse_long_abbrev, (plain_not_sep v Hv), (parse_optional_plain _ v Hv) by done.
    destruct (classify blog_parser rest);
      destruct (k_cases k Hk) as [-> | [-> | [-> | [-> | [-> | ->]]]]]; destruct b; reflexivity.
  - intros Hk. cbn [render app classify]. rewrite parse_long_eq by done.
    destruct (classify blog_parser rest);
      destruct (k_cases k Hk) as [-> | [-> | [-> | [-> | [-> | ->]]]]]; destruct b; reflexivity.
  - intros Hv. cbn [render app classify]. rewrite parse_short, (plain_not_sep v Hv), (parse_optional_plain _ v Hv).
    destruct (classify blog_parser rest); by destruct b.
  - destruct v as [|c v]; [done|]. intros Hc. cbn [render app classify].
    rewrite parse_short_joined by done. destruct (classify blog_parser rest); by destruct b.
  - intros _. cbn [render app classify]. rewrite parse_short_eq. destruct (classify blog_parser rest); by destruct b.
Qed.

Lemma classify_settings sts :
  Forall setting_ok sts ->
  classify blog_parser (concat (map render sts)) = inr (concat (map setting_toks sts)).
Proof.
  induction 1 as [|st sts Hst _ IH]; [done|]. cbn [map concat].
  by rewrite classify_setting, IH.
Qed.

Definition apply_setting (ns : gmap string AVal) (st : BlogOpt * Spelling * string) : gmap string AVal :=
  let '(b, _, v) := st in <[opt_dest (bopt b) := VStr v]> ns.

(** Each setting's option takes its value, in order. *)
Lemma consume_settings sts ns :
  consume_loop blog_parser (concat (map setting_toks sts)) None ns [] = ONs (fold_left apply_setting sts ns).
Proof.
  revert ns. induction sts as [|[[b sp] v] sts IH]; intros ns; [done|].
  destruct sp, b; simpl; rewrite ?gather_explicit_store by done; simpl; apply IH.
Qed.

Lemma ns_str_settings b sts ns :
  ns_str (fold_left apply_setting sts ns) (opt_dest (bopt b)) = last_value b sts (ns_str ns (opt_dest (bopt b))).
Proof.
  revert ns. induction sts as [|[[b' sp] v] sts IH]; intros ns; [done|]. simpl.
  rewrite IH. f_equal. unfold ns_str at 1. destruct (decide (b = b')) as [->|Hne].
  - by rewrite lookup_insert_eq.
  - rewrite lookup_insert_ne; [done|]. by destruct b, b'.
Qed.

(** The organizer's words, classified. *)
Definition dry_tok : Tok := TOpt (Some dry_run_opt) "--dry-run" None.
Definition org_tok (a : string) : Tok := if String.eqb a "--dry-run" then dry_tok else TArg a.

Lemma classify_org argv :
  Forall (fun a => org_word a = true) argv -> classify org_parser argv = inr (map org_tok argv).
Proof.
  induction 1 as [|a argv Ha _ IH]; [done|]. cbn [classify map]. rewrite IH. unfold org_tok.
  destruct (String.eqb_spec a "--dry-run") as [->|Hne]; [reflexivity|].
  unfold org_word in Ha. apply String.eqb_neq in Hne. rewrite Hne in Ha. simpl in Ha.
  by rewrite (plain_not_sep a Ha), (parse_optional_plain _ a Ha).
Qed.

Lemma Forall_filter_plain l : Forall (fun w => plain w = true) (List.filter plain l).
Proof. apply List.Forall_forall. intros x Hx. by apply List.filter_In in Hx as [_ ->]. Qed.

(** [finish] on plain arguments: the positional takes the first. *)
Lemma finish_args pos ws ns extras :
  Forall (fun w => plain w = true) ws ->
  finish pos (map TArg ws) ns extras =
  match pos with
  | None => match extras ++ ws with [] => ONs ns | ex => OErr (ErrUnrecognized ex) end
  | Some ps =>
      match extras ++ tail ws with
      | [] => ONs (<[pos_dest ps := VStr (default (pos_default ps) (head ws))]> ns)
      | ex => OErr (ErrUnrecognized ex)
      end
  end.
Proof.
  assert (Hm : forall ws, map tok_option_string (map TArg ws) = ws).
  { intros l. rewrite map_map. apply map_id. }
  intros Hws. destruct pos as [ps|]; unfold finish; [|by rewrite Hm].
  destruct Hws as [|w ws Hw Hws]; [done|].
  assert (Hr : match_positional (map TArg (w :: ws)) = ([TArg w], map TArg ws)).
  { unfold match_positional. simpl. by destruct ws. }
  rewrite Hr. simpl. rewrite (plain_not_sep w Hw). simpl. by rewrite Hm.
Qed.

Lemma existsb_org_tok argv :
  existsb is_opt (map org_tok argv) = existsb (fun a => String.eqb a "--dry-run") argv.
Proof. induction argv as [|a argv IH]; [done|]. simpl. rewrite IH. unfold org_tok. by destruct (String.eqb a _). Qed.

Lemma org_words_no_flag argv :
  Forall (fun a => org_word a = true) argv -> existsb (fun a => String.eqb a "--dry-run") argv = false ->
  map org_tok argv = map TArg (List.filter plain argv).
Proof.
  induction 1 as [|a argv Ha _ IH]; [done|]. cbn [existsb]. unfold org_word in Ha.
  destruct (String.eqb a "--dry-run") eqn:Ea; [done|]. simpl in Ha. intros E.
  cbn [map List.filter]. unfold org_tok at 1. rewrite Ea, Ha. cbn [map]. by rewrite IH.
Qed.

(** A [--dry-run] sets [dry_run]. *)
Lemma consume_dry ts pos ns extras :
  consume_loop org_parser (dry_tok :: ts) pos ns extras =
  consume_loop org_parser ts pos (<["dry_run" := VBool true]> ns) extras.
Proof. reflexivity. Qed.

(** The loop on those words: the flags set [dry_run], and the arguments
    meet [finish] as if they all came after the last flag. *)
Lemma org_loop argv pos ns extras :
  Forall (fun a => org_word a = true) argv ->
  match pos with Some ps => pos_dest ps <> "dry_run" | None => True end ->
  consume_loop org_parser (map org_tok argv) pos ns extras =
  finish pos (map TArg (List.filter plain argv))
    (if existsb (fun a => String.eqb a "--dry-run") argv then <["dry_run" := VBool true]> ns else ns) extras.
Proof.
  intros Hargv. revert pos ns extras. induction Hargv as [|a argv Ha Hargv IH]; intros pos ns extras Hpos; [done|].
  unfold org_word in Ha. cbn [map]. unfold org_tok at 1.
  destruct (String.eqb_spec a "--dry-run") as [->|Hne].
  - rewrite consume_dry, IH by done.
    change (List.filter plain ("--dry-run" :: argv)) with (List.filter plain argv).
    change (existsb (fun a => String.eqb a "--dry-run") ("--dry-run" :: argv)) with true.
    destruct (existsb _ argv); by rewrite ?insert_insert_eq.
  - apply String.eqb_neq in Hne as Hne'. simpl in Ha.
    assert (Hf : List.filter plain (a :: argv) = a :: List.filter plain argv) by (simpl; by rewrite Ha).
    pose proof (Forall_filter_plain (a :: argv)) as Hws.
    rewrite Hf in Hws |- *. cbn [existsb]. rewrite Hne'. cbn [orb].
    cbn [consume_loop existsb is_opt orb negb]. rewrite existsb_org_tok.
    destruct (existsb (fun a => String.eqb a "--dry-run") argv) eqn:E.
    + inversion Hws as [|? ? _ Hws']. destruct pos as [ps|].
      * rewrite IH by done. rewrite !finish_args by done. cbn [tail head default].
        destruct (extras ++ List.filter plain argv); [|done]. f_equal. apply insert_insert_ne. congruence.
      * rewrite IH by done. rewrite !finish_args by done. by rewrite <- app_assoc.
    + by rewrite org_words_no_flag.
Qed.

(** The parse of the organizer's command lines. *)
Lemma org_parse argv :
  Forall (fun a => org_word a = true) argv ->
  parse_args org_parser argv =
    match List.filter plain argv with
    | _ :: w2 :: ws => OErr (ErrUnrecognized (w2 :: ws))
    | ws => ONs (<["directory" := VStr (default "." (head ws))]>
                   (<["dry_run" := VBool (existsb (fun a => String.eqb a "--dry-run") argv)]> (defaults org_parser)))
    end.
Proof.
  intros Hargv. unfold parse_args. rewrite classify_org by done.
  rewrite org_loop by (done || discriminate). cbn [positional org_parser].
  rewrite finish_args by apply Forall_filter_plain. cbn [app pos_dest pos_default].
  destruct (existsb _ argv); destruct (List.filter plain argv) as [|w [|w2 ws]]; try done;
    cbn [tail head default]; f_equal; f_equal; by rewrite insert_id.
Qed.

(** ** Theorems *)

(** C37: the blog generator's options, round trip: a command line made of
    any number of settings of [--source] and [--output], each in any of
    the spellings argparse accepts ([--source v], an abbreviation such as
    [--sou v], [--sou=v], [-s v], [-sv], [-s=v]), parses to the value of
    the last setting of each option, or its default ([posts],
    [output]). *)
Theorem blog_args_roundtrip (sts : list (BlogOpt * Spelling * string)) :
  Forall setting_ok sts ->
  exists ns, parse_args blog_parser (concat (map render sts)) = ONs ns /\
    ns_str ns "source" = last_value BSource sts "posts" /\
    ns_str ns "output" = last_value BOutput sts "output".
Proof.
  intros Hsts. unfold parse_args. rewrite classify_settings by done.
  eexists. split; [apply consume_settings|].
  split; [apply (ns_str_settings BSource)|apply (ns_str_settings BOutput)].
Qed.

Lemma blog_args_roundtrip_witness :
  exists ns, parse_args blog_parser ["--sourc"; "drafts"; "-osite"; "--source=-x"] = ONs ns /\
    ns_str ns "source" = "-x" /\ ns_str ns "output" = "site".
Proof.
  destruct (blog_args_roundtrip [(BSource, SLong 7, "drafts"); (BOutput, SShortJoined, "site");
                                 (BSource, SLongEq 8, "-x")]) as (ns & Hp & Hs & Ho).
  - repeat constructor; cbn; try lia; discriminate.
  - cbn [map render concat app last_value bopt long_name short_name] in Hp, Hs, Ho.
    exists ns. exact (conj Hp (conj Hs Ho)).
Defined.

(** C38: the organizer's command line: any interleaving of [--dry-run]
    flags and directory words parses to the first word as [directory]
    (['.'] without one) and [dry_run] set exactly when a flag occurs; a
    second word, wherever it stands, is an [unrecognized arguments]
    error naming every word after the first. *)
Theorem org_args_interleaving (argv : list string) :
  Forall (fun a => org_word a = true) argv ->
  parse_args org_parser argv =
    match List.filter plain argv with
    | _ :: w2 :: ws => OErr (ErrUnrecognized (w2 :: ws))
    | ws => ONs (<["directory" := VStr (default "." (head ws))]>
                   (<["dry_run" := VBool (existsb (fun a => String.eqb a "--dry-run") argv)]> (defaults org_parser)))
    end.
Proof. exact (org_parse argv). Qed.

Lemma org_args_interleaving_witness :
  parse_args org_parser ["--dry-run"; "d"; "--dry-run"; "e"] = OErr (ErrUnrecognized ["e"]).
Proof. rewrite (org_args_interleaving _); [reflexivity | repeat constructor]. Defined.


(** C40: composition of the command line with the organizer: run as
    [organizer.py [DIR] --dry-run] (the flag anywhere, at most one
    directory word), the program leaves the file system as it was and
    counts nothing. *)
Theorem org_cli_dry_run `{Organizer.OrgOS} (listing_of : list string -> list string) (argv : list string)
    (f : Organizer.FS) :
  Forall (fun a => org_word a = true) argv -> In "--dry-run" argv -> length (List.filter plain argv) <= 1 ->
  exists out, org_main listing_of argv f = inr (f, ∅, out).
Proof.
  intros Hw Hin Hlen. unfold org_main. rewrite org_parse by done.
  assert (Hd : existsb (fun a => String.eqb a "--dry-run") argv = true).
  { apply existsb_exists. exists "--dry-run". split; [done|apply String.eqb_refl]. }
  rewrite Hd. destruct (List.filter plain argv) as [|w [|w2 ws]]; [| |simpl in Hlen; lia];
    unfold ns_str, ns_bool; rewrite lookup_insert_eq, lookup_insert_ne, lookup_insert_eq by done;
    cbn [default head];
    match goal with |- context [Organizer.run ?d ?l true f] =>
      pose proof (Organizer.run_dry d l f) as Hr; destruct (Organizer.run d l true f) as [[f' st] out] end;
    simpl in Hr; injection Hr as -> ->; by exists out.
Qed.

Lemma org_cli_dry_run_witness :
  exists out, org_main (H := Organizer.os_reliable) (fun _ => ["a.txt"; "Documents"])
                ["d"; "--dry-run"] Organizer.crowded_fs = inr (Organizer.crowded_fs, ∅, out).
Proof.
  apply (org_cli_dry_run (H := Organizer.os_reliable)); [repeat constructor | right; left; reflexivity | simpl; lia].
Defined.

End Cli.
