(* ===== verification/App.v ===== *)
(** * The Litestar hello-world application

    Source: src/outputs/01-litestar-hello-world/app.py.  Two [async] route
    handlers return constant JSON objects, and [app] registers them with
    the [@get] decorator's method and path.  A handler's result is its
    dict ([list (string * string)], keys in insertion order); the
    application is its route table.  Litestar's dispatch (exact path
    match, 404 for an unknown path, 405 for a known path with another
    method) is the framework's and is modelled only as far as these
    routes use it ([dispatch]); middleware, serialization and the ASGI
    server are not modelled. *)

From S2P Require Import Prelude.

Module App.
Local Open Scope string_scope.

(** A JSON object with string values, as the handlers build it. *)
Definition Json : Type := list (string * string).

(** [hello_world()] (lines 4-6). *)
Definition hello_world : Json := [("message", "Hello, World!")].

(** [health_check()] (lines 9-11). *)
Definition health_check : Json := [("status", "healthy")].

(** A route: the decorator's method and path, and the handler. *)
Record Route : Type := mkRoute {
  route_method : string;
  route_path : string;
  route_handler : Json
}.

(** [app = Litestar(route_handlers=[hello_world, health_check])]
    (line 14), with the paths of the decorators of lines 4 and 9. *)
Definition app : list Route :=
  [mkRoute "GET" "/" hello_world; mkRoute "GET" "/health" health_check].

(** The framework's answer to a request. *)
Inductive Response : Type :=
| RespJson (status : Z) (body : Json)
| RespNotFound
| RespMethodNotAllowed.

(** The route of [app] for a path, if any. *)
Fixpoint route_for (routes : list Route) (p : string) : option Route :=
  match routes with
  | [] => None
  | r :: rest => if String.eqb (route_path r) p then Some r else route_for rest p
  end.

(** Dispatch of a request by method and path. *)
Definition dispatch (routes : list Route) (method p : string) : Response :=
  match route_for routes p with
  | None => RespNotFound
  | Some r => if String.eqb (route_method r) method then RespJson 200 (route_handler r) else RespMethodNotAllowed
  end.

(** Litestar refuses two handlers for the same method and path. *)
Definition routes_distinct (routes : list Route) : Prop :=
  NoDup (map (fun r => (route_method r, route_path r)) routes).

(** ** Lemmas *)

Lemma app_routes_distinct : routes_distinct app.
Proof. unfold routes_distinct. apply (bool_decide_unpack _). vm_compute. reflexivity. Qed.

(** Every path of the table answers its handler's object to [GET]. *)
Lemma dispatch_app_get p :
  dispatch app "GET" p =
  if String.eqb p "/" then RespJson 200 hello_world
  else if String.eqb p "/health" then RespJson 200 health_check
  else RespNotFound.
Proof.
  unfold dispatch, app. cbn [route_for route_path route_method route_handler].
  destruct (String.eqb_spec "/" p) as [<-|H1]; [done|].
  rewrite (proj2 (String.eqb_neq p "/")) by congruence.
  destruct (String.eqb_spec "/health" p) as [<-|H2]; [done|].
  rewrite (proj2 (String.eqb_neq p "/health")) by congruence. done.
Qed.

End App.
